(** * Project orchestrator agent: tools and turn loop

    A shallow embedding of [src/agent/orchestrator_agent.py]: the five tools
    registered on the agent ([save_message], [get_project_context],
    [get_conversation], [update_status], [save_vision_document]) and the
    turn function [run_orchestrator].

    Python coroutines become functions in a state-and-exception monad over
    the database session; a raised exception keeps the session as it was at
    the point of the raise, since nothing in the module rolls back. *)

From Stdlib Require Import Ascii String ZArith.
From stdpp Require Import gmap strings list fin_maps pretty.

Local Open Scope string_scope.
Local Open Scope Z_scope.
Local Open Scope list_scope.

(** ** Python values the module handles *)

(** [uuid.UUID], by its 128-bit integer. Every UUID object is truthy, so
    [not ctx.deps.project_id] holds exactly for [None]. *)
Definition UUID := N.

(** [datetime], as a point on the time line. *)
Definition datetime := Z.

(** A scalar stored under a key of a returned [dict]. *)
Inductive PyVal :=
| PyNone
| PyBool (b : bool)
| PyStr (s : string).

#[global] Instance PyVal_eq_dec : EqDecision PyVal.
Proof. solve_decision. Defined.

(** Nested key/value data, the argument of [save_vision_document]. *)
#[warnings="-register-all"]
Inductive JSON :=
| JNull
| JBool (b : bool)
| JNum (n : Z)
| JStr (s : string)
| JList (items : list JSON)
| JDict (fields : list (string * JSON)).

(** The exceptions that can travel through the module. [KeyError] is what
    [Enum.__getitem__] raises; the others come from the storage helpers and
    from the model call. *)
Inductive Exn :=
| KeyError (key : string)
| NotFound (project : UUID)
| InvalidArgument (what : string)
| UpstreamError (what : string).

#[global] Instance Exn_eq_dec : EqDecision Exn.
Proof. solve_decision. Defined.

(** ** Built-ins of the Python runtime *)

(** [str.upper] on ASCII text: a-z go to A-Z, every other character stays. *)
Definition ascii_upper_char (c : ascii) : ascii :=
  let n := nat_of_ascii c in
  if ((97 <=? n)%nat && (n <=? 122)%nat)%bool then ascii_of_nat (n - 32) else c.

Fixpoint ascii_upper (s : string) : string :=
  match s with
  | EmptyString => EmptyString
  | String c rest => String (ascii_upper_char c) (ascii_upper rest)
  end.

Fixpoint is_ascii_str (s : string) : bool :=
  match s with
  | EmptyString => true
  | String c rest => (nat_of_ascii c <? 128)%nat && is_ascii_str rest
  end.

(** The library functions the module calls and does not define. [str_upper]
    is [str.upper]: it is only pinned down on ASCII text, where Python's
    Unicode case mapping is the ASCII one. [clock] is the sequence of
    readings of the storage clock, one per write. *)
Class PyRuntime := {
  str_upper : string -> string;
  str_upper_ascii : forall s, is_ascii_str s = true -> str_upper s = ascii_upper s;
  uuid_str : UUID -> string;
  isoformat : datetime -> string;
  clock : nat -> datetime;
  clock_mono : forall i j, (i <= j)%nat -> clock i <= clock j
}.

(** ** Enumerations *)

(** A Python [Enum] class: its members in definition order, and the [name]
    and [value] of each. *)
Class PyEnum (E : Type) := {
  enum_eq_dec :: EqDecision E;
  members : list E;
  member_name : E -> string;
  member_value : E -> string
}.

(** What an [Enum] declaration guarantees: every member is listed once
    under its own name; and, for the two enums of this program, the names
    are upper-case ASCII identifiers. *)
Class PyEnumLaws (E : Type) `{PyEnum E} := {
  members_all : forall m : E, m ∈ members;
  member_names_nodup : NoDup (member_name <$> members);
  member_names_ascii : forall m : E, is_ascii_str (member_name m) = true;
  member_names_upper : forall m : E, ascii_upper (member_name m) = member_name m
}.

(** [E[key]]: the member called [key]; [None] stands for the [KeyError]. *)
Definition enum_getitem {E} `{PyEnum E} (key : string) : option E :=
  List.find (fun m => bool_decide (member_name m = key)) members.
Arguments enum_getitem : simpl never.

(** Modelled from the spec: [MessageRole] of [src/database/models] (not among
    the sources). Section 3: role is one of USER, ASSISTANT, SYSTEM, a closed
    set; the values are the ones the docstring of [save_message] lists. *)
Inductive MessageRole := USER | ASSISTANT | SYSTEM.

#[global] Instance MessageRole_eq_dec : EqDecision MessageRole.
Proof. solve_decision. Defined.

#[global] Instance MessageRole_enum : PyEnum MessageRole := {
  members := [USER; ASSISTANT; SYSTEM];
  member_name r := match r with
                   | USER => "USER" | ASSISTANT => "ASSISTANT" | SYSTEM => "SYSTEM"
                   end;
  member_value r := match r with
                    | USER => "user" | ASSISTANT => "assistant" | SYSTEM => "system"
                    end
}.

(** ** Records of the data model *)

(** The attributes of a [Project] row that [get_project_context] reads
    ([src/database/models] is not among the sources). *)
Module Project.
Record t (Status : Type) := {
  id : UUID;
  name : string;
  description : option string;
  status : Status;
  github_repo_url : option string;
  telegram_chat_id : option string;
  vision_document : option JSON;
  created_at : datetime;
  updated_at : datetime
}.
Arguments id {_} _.
Arguments name {_} _.
Arguments description {_} _.
Arguments status {_} _.
Arguments github_repo_url {_} _.
Arguments telegram_chat_id {_} _.
Arguments vision_document {_} _.
Arguments created_at {_} _.
Arguments updated_at {_} _.
End Project.

(** A row of the conversation ledger. *)
Module ConversationMessage.
Record t := {
  project_id : UUID;
  role : MessageRole;
  content : string;
  timestamp : datetime
}.
End ConversationMessage.

(** [AgentDependencies(session, project_id)]. The session is the state the
    monad threads, so only the binding of the current project is kept. *)
Module AgentDependencies.
Record t := { project_id : option UUID }.
End AgentDependencies.

(** The database behind a session: the project table, the ledger in
    insertion order, and the number of clock readings taken so far. *)
Record Session (Status : Type) := {
  projects : gmap UUID (Project.t Status);
  messages : list ConversationMessage.t;
  ticks : nat
}.
Arguments projects {_} _.
Arguments messages {_} _.
Arguments ticks {_} _.

(** ** The monad of coroutines over a session *)

Inductive Outcome (A : Type) :=
| Return (a : A)
| Raise (e : Exn).
Arguments Return {_} _.
Arguments Raise {_} _.

Definition M (S A : Type) : Type := S -> Outcome A * S.

Definition ret {S A} (a : A) : M S A := fun s => (Return a, s).

Definition raise {S A} (e : Exn) : M S A := fun s => (Raise e, s).

Definition bind {S A B} (c : M S A) (k : A -> M S B) : M S B :=
  fun s => match c s with
           | (Return a, s') => k a s'
           | (Raise e, s') => (Raise e, s')
           end.

(** [try: body / except KeyError: handler]. Any other exception passes. *)
Definition try_except_KeyError {S A} (body : M S A) (handler : M S A) : M S A :=
  fun s => match body s with
           | (Raise (KeyError _), s') => handler s'
           | r => r
           end.

Notation "x <- c ;; k" := (bind c (fun x => k))
  (at level 100, c at next level, right associativity).
Notation "'await' c ;; k" := (bind c (fun _ => k))
  (at level 100, c at next level, right associativity).

Section Orchestrator.
Context `{RT : PyRuntime}.
Context {ProjectStatus : Type} `{SE : PyEnum ProjectStatus}.

Abbreviation Project := (Project.t ProjectStatus).
Abbreviation session := (Session ProjectStatus).
Abbreviation Coroutine := (M session).

(** [E[key]] as a statement: the member, or [KeyError(key)]. *)
Definition getitem (E : Type) `{PyEnum E} (key : string) : Coroutine E :=
  match enum_getitem key with
  | Some m => ret m
  | None => raise (KeyError key)
  end.

(** ** Storage helpers of [src/agent/tools.py] *)

(** Modelled from the spec: [save_conversation_message] of
    [src/agent/tools.py] (not among the sources). Section 4.1, append:
    fails with NotFound if the project does not exist; otherwise persists
    a new message, stamped at append time, after all earlier ones, and
    returns it. *)
Definition save_conversation_message (project_id : UUID) (role : MessageRole)
    (content : string) : Coroutine ConversationMessage.t :=
  fun s =>
    match projects s !! project_id with
    | None => (Raise (NotFound project_id), s)
    | Some _ =>
        let message :=
          {| ConversationMessage.project_id := project_id;
             ConversationMessage.role := role;
             ConversationMessage.content := content;
             ConversationMessage.timestamp := clock (ticks s) |} in
        (Return message,
         {| projects := projects s;
            messages := messages s ++ [message];
            ticks := S (ticks s) |})
    end.

(** Modelled from the spec: [get_project] of [src/agent/tools.py] (not among
    the sources). Section 4.2, get: returns the project, fails with NotFound
    if it is absent. The result is typed as optional because
    [get_project_context] tests it with [if not project]; the helper as the
    spec words it never hands back [None]. *)
Definition get_project (project_id : UUID) : Coroutine (option Project) :=
  fun s =>
    match projects s !! project_id with
    | Some p => (Return (Some p), s)
    | None => (Raise (NotFound project_id), s)
    end.

(** Modelled from the spec: [get_conversation_history] of
    [src/agent/tools.py] (not among the sources). Section 4.1, recent: up
    to [limit] most recent messages of the project, oldest first;
    InvalidArgument for a non-positive limit, NotFound for an absent
    project. *)
Definition get_conversation_history (project_id : UUID) (limit : Z)
    : Coroutine (list ConversationMessage.t) :=
  fun s =>
    if limit <=? 0 then (Raise (InvalidArgument "limit"), s)
    else match projects s !! project_id with
         | None => (Raise (NotFound project_id), s)
         | Some _ =>
             let own := filter (fun m => ConversationMessage.project_id m = project_id)
                               (messages s) in
             (Return (drop (length own - Z.to_nat limit) own), s)
         end.

(** Modelled from the spec: [update_project_status] of [src/agent/tools.py]
    (not among the sources). Section 4.2, setStatus after parsing: updates
    [status] and [updated_at] and returns the updated record, whatever the
    previous status; NotFound, as section 7 has it, for an absent project. *)
Definition update_project_status (project_id : UUID) (status : ProjectStatus)
    : Coroutine Project :=
  fun s =>
    match projects s !! project_id with
    | None => (Raise (NotFound project_id), s)
    | Some p =>
        let p' :=
          {| Project.id := Project.id p;
             Project.name := Project.name p;
             Project.description := Project.description p;
             Project.status := status;
             Project.github_repo_url := Project.github_repo_url p;
             Project.telegram_chat_id := Project.telegram_chat_id p;
             Project.vision_document := Project.vision_document p;
             Project.created_at := Project.created_at p;
             Project.updated_at := clock (ticks s) |} in
        (Return p',
         {| projects := <[project_id := p']> (projects s);
            messages := messages s;
            ticks := S (ticks s) |})
    end.

(** Modelled from the spec: [update_project_vision] of [src/agent/tools.py]
    (not among the sources). Section 4.2, setVisionDocument: replaces the
    document wholesale and refreshes [updated_at]; NotFound for an absent
    project. *)
Definition update_project_vision (project_id : UUID) (vision_doc : JSON)
    : Coroutine Project :=
  fun s =>
    match projects s !! project_id with
    | None => (Raise (NotFound project_id), s)
    | Some p =>
        let p' :=
          {| Project.id := Project.id p;
             Project.name := Project.name p;
             Project.description := Project.description p;
             Project.status := Project.status p;
             Project.github_repo_url := Project.github_repo_url p;
             Project.telegram_chat_id := Project.telegram_chat_id p;
             Project.vision_document := Some vision_doc;
             Project.created_at := Project.created_at p;
             Project.updated_at := clock (ticks s) |} in
        (Return p',
         {| projects := <[project_id := p']> (projects s);
            messages := messages s;
            ticks := S (ticks s) |})
    end.

(** ** The tools registered on the agent *)

Definition py_optional_str (v : option string) : PyVal :=
  match v with
  | Some x => PyStr x
  | None => PyNone
  end.

(** [x is not None]. *)
Definition is_not_None {A} (v : option A) : bool :=
  match v with
  | Some _ => true
  | None => false
  end.

Definition save_message (ctx : AgentDependencies.t) (role content : string)
    : Coroutine string :=
  match AgentDependencies.project_id ctx with
  | None => ret "Error: No active project"
  | Some project_id =>
      role_enum <- getitem MessageRole (str_upper role) ;;
      await save_conversation_message project_id role_enum content ;;
      ret ("Message saved as " +:+ role)
  end.

Definition get_project_context (ctx : AgentDependencies.t)
    : Coroutine (gmap string PyVal) :=
  match AgentDependencies.project_id ctx with
  | None => ret {[ "error" := PyStr "No active project" ]}
  | Some project_id =>
      project <- get_project project_id ;;
      match project with
      | None => ret {[ "error" := PyStr "Project not found" ]}
      | Some project =>
          ret (list_to_map
                 [ ("id", PyStr (uuid_str (Project.id project)));
                   ("name", PyStr (Project.name project));
                   ("description", py_optional_str (Project.description project));
                   ("status", PyStr (member_value (Project.status project)));
                   ("github_repo_url", py_optional_str (Project.github_repo_url project));
                   ("telegram_chat_id", py_optional_str (Project.telegram_chat_id project));
                   ("has_vision_document",
                    PyBool (is_not_None (Project.vision_document project)));
                   ("created_at", PyStr (isoformat (Project.created_at project)));
                   ("updated_at", PyStr (isoformat (Project.updated_at project))) ])
      end
  end.

Definition get_conversation (ctx : AgentDependencies.t) (limit : Z)
    : Coroutine (list (gmap string PyVal)) :=
  match AgentDependencies.project_id ctx with
  | None => ret [ {[ "error" := PyStr "No active project" ]} ]
  | Some project_id =>
      messages <- get_conversation_history project_id limit ;;
      ret (map (fun msg =>
                  list_to_map
                    [ ("role", PyStr (member_value (ConversationMessage.role msg)));
                      ("content", PyStr (ConversationMessage.content msg));
                      ("timestamp",
                       PyStr (isoformat (ConversationMessage.timestamp msg))) ])
               messages)
  end.

Definition update_status (ctx : AgentDependencies.t) (new_status : string)
    : Coroutine string :=
  match AgentDependencies.project_id ctx with
  | None => ret "Error: No active project"
  | Some project_id =>
      try_except_KeyError
        (status_enum <- getitem ProjectStatus (str_upper new_status) ;;
         await update_project_status project_id status_enum ;;
         ret ("Project status updated to " +:+ new_status))
        (ret ("Error: Invalid status '" +:+ new_status +:+ "'"))
  end.

Definition save_vision_document (ctx : AgentDependencies.t) (vision_doc : JSON)
    : Coroutine string :=
  match AgentDependencies.project_id ctx with
  | None => ret "Error: No active project"
  | Some project_id =>
      await update_project_vision project_id vision_doc ;;
      ret "Vision document saved successfully"
  end.

(** ** The agent run *)

(** A tool call as the model requests it: the tool and its arguments.
    [get_conversation] has [limit = 20] when the argument is left out. *)
Inductive ToolCall :=
| Call_save_message (role content : string)
| Call_get_project_context
| Call_get_conversation (limit : option Z)
| Call_update_status (new_status : string)
| Call_save_vision_document (vision_doc : JSON).

(** What a tool hands back to the model. *)
Inductive ToolReturn :=
| ReturnStr (s : string)
| ReturnDict (d : gmap string PyVal)
| ReturnList (l : list (gmap string PyVal)).

Definition call_tool (ctx : AgentDependencies.t) (c : ToolCall) : Coroutine ToolReturn :=
  match c with
  | Call_save_message role content =>
      r <- save_message ctx role content ;; ret (ReturnStr r)
  | Call_get_project_context =>
      r <- get_project_context ctx ;; ret (ReturnDict r)
  | Call_get_conversation limit =>
      r <- get_conversation ctx (default 20 limit) ;; ret (ReturnList r)
  | Call_update_status new_status =>
      r <- update_status ctx new_status ;; ret (ReturnStr r)
  | Call_save_vision_document vision_doc =>
      r <- save_vision_document ctx vision_doc ;; ret (ReturnStr r)
  end.

(** The model behind [orchestrator_agent], as the decision process the spec
    describes in section 9: it ends with the final text ([result.data]),
    fails with an exception of its own, or requests a tool call and goes on
    from the value the tool returned. *)
Inductive Model :=
| Final (data : string)
| Failure (e : Exn)
| Request (c : ToolCall) (resume : ToolReturn -> Model).

(** Modelled from the spec: [Agent.run] of the agent library (not among the
    sources). Sections 4.4 and 9: tool calls are executed one after the
    other against the session, each result is fed back, until the model
    finishes. An exception that leaves a tool function is not caught by the
    run and leaves it too. Attempts that the library repeats ([retries=2])
    are part of the same [Model]: their tool calls reach the session like
    all others and are not undone. *)
Fixpoint Agent_run (model : Model) (deps : AgentDependencies.t) : Coroutine string :=
  match model with
  | Final data => ret data
  | Failure e => raise e
  | Request c resume =>
      r <- call_tool deps c ;;
      Agent_run (resume r) deps
  end.

(** ** One turn *)

(** [orchestrator_agent] answers a user message with a [Model]: the system
    prompt and the model are fixed, the user message is the argument. *)
Definition run_orchestrator (orchestrator_agent : string -> Model)
    (project_id : UUID) (user_message : string) : Coroutine string :=
  let deps := {| AgentDependencies.project_id := Some project_id |} in
  await save_conversation_message project_id USER user_message ;;
  result_data <- Agent_run (orchestrator_agent user_message) deps ;;
  await save_conversation_message project_id ASSISTANT result_data ;;
  ret result_data.

(** ** Vocabulary of the statements *)

(** Two spellings of one name, letter case aside. *)
Definition same_ignoring_case (a b : string) : Prop := str_upper a = str_upper b.

(** The tool calls a run makes on session [s], in the order it makes them.
    The last one may be the call whose exception ends the run. *)
Fixpoint calls_made (model : Model) (deps : AgentDependencies.t) (s : session)
    : list ToolCall :=
  match model with
  | Final _ | Failure _ => []
  | Request c resume =>
      c :: match call_tool deps c s with
           | (Return r, s') => calls_made (resume r) deps s'
           | (Raise _, _) => []
           end
  end.

Definition is_save_message (c : ToolCall) : bool :=
  match c with
  | Call_save_message _ _ => true
  | _ => false
  end.

(** The [save_message] calls among [calls], in order. *)
Definition save_message_calls (calls : list ToolCall) : list ToolCall :=
  filter (fun c => is_save_message c = true) calls.

(** A tool result that reports a problem: a string that starts with
    [Error:], a dict with an [error] key, or a list that holds such a dict. *)
Definition reports_error (r : ToolReturn) : bool :=
  match r with
  | ReturnStr s => String.prefix "Error:" s
  | ReturnDict d => bool_decide (is_Some (d !! "error"))
  | ReturnList l => existsb (fun d => bool_decide (is_Some (d !! "error"))) l
  end.

(** [m] is what the call [c] asks [save_message] to store: the content as
    given, under the role that the role string names. *)
Definition saved_by (c : ToolCall) (m : ConversationMessage.t) : Prop :=
  match c with
  | Call_save_message role content =>
      enum_getitem (str_upper role) = Some (ConversationMessage.role m) /\
      ConversationMessage.content m = content
  | _ => False
  end.

(** The call [c] has stored [m] for project [project_id]. *)
Definition stores (project_id : UUID) (c : ToolCall) (m : ConversationMessage.t)
    : Prop :=
  ConversationMessage.project_id m = project_id /\ saved_by c m.

(** From [s] to [s'] the ledger has grown by [extra], all of it messages that
    satisfy [P], and the same projects exist. *)
Definition ledger_extended (P : ConversationMessage.t -> Prop)
    (extra : list ConversationMessage.t) (s s' : session) : Prop :=
  messages s' = messages s ++ extra /\
  Forall P extra /\
  forall q : UUID, is_Some (projects s' !! q) <-> is_Some (projects s !! q).

End Orchestrator.

(** The Project fields that section 3 of the spec lists. *)
Inductive Section3Field :=
| F_id
| F_status
| F_visionDocument
| F_externalRepoUrl
| F_externalChatHandle
| F_createdAt
| F_updatedAt.

(** The key under which [get_project_context] reports a field of section 3;
    the vision document is reported by its presence flag. *)
Definition context_key (f : Section3Field) : string :=
  match f with
  | F_id => "id"
  | F_status => "status"
  | F_visionDocument => "has_vision_document"
  | F_externalRepoUrl => "github_repo_url"
  | F_externalChatHandle => "telegram_chat_id"
  | F_createdAt => "created_at"
  | F_updatedAt => "updated_at"
  end.

Definition section3_keys : gset string :=
  list_to_set (context_key <$>
    [F_id; F_status; F_visionDocument; F_externalRepoUrl; F_externalChatHandle;
     F_createdAt; F_updatedAt]).

(** ** A concrete runtime and a concrete status enum, to run the model on *)

(** The runtime on ASCII text. Identifiers and dates are rendered by their
    decimal numerals, and the clock reads 0, 1, 2, ... *)
Definition ascii_runtime : PyRuntime := {|
  str_upper := ascii_upper;
  str_upper_ascii := fun s _ => eq_refl;
  uuid_str := fun u => pretty u;
  isoformat := fun t => pretty t;
  clock := Z.of_nat;
  clock_mono := fun i j H => proj1 (Nat2Z.inj_le i j) H
|}.

(** Modelled from the spec: [ProjectStatus] of [src/database/models] (not
    among the sources). Section 3 and the docstring of [update_status] name
    two phases, BRAINSTORMING and VISION_REVIEW, and leave the others open;
    this is the enum with those two. *)
Inductive NamedStatus := BRAINSTORMING | VISION_REVIEW.

#[global] Instance NamedStatus_eq_dec : EqDecision NamedStatus.
Proof. solve_decision. Defined.

#[global] Instance NamedStatus_enum : PyEnum NamedStatus := {
  members := [BRAINSTORMING; VISION_REVIEW];
  member_name st := match st with
                    | BRAINSTORMING => "BRAINSTORMING"
                    | VISION_REVIEW => "VISION_REVIEW"
                    end;
  member_value st := match st with
                     | BRAINSTORMING => "brainstorming"
                     | VISION_REVIEW => "vision_review"
                     end
}.

(** A project in its first phase, with no vision document yet. *)
Definition demo_project : Project.t NamedStatus := {|
  Project.id := 1%N;
  Project.name := "shop";
  Project.description := None;
  Project.status := BRAINSTORMING;
  Project.github_repo_url := None;
  Project.telegram_chat_id := None;
  Project.vision_document := None;
  Project.created_at := 0;
  Project.updated_at := 0
|}.

(** A database that holds [demo_project] and an empty ledger. *)
Definition demo_session : Session NamedStatus := {|
  projects := {[ 1%N := demo_project ]};
  messages := [];
  ticks := 0
|}.

Definition bound_to (project_id : UUID) : AgentDependencies.t :=
  {| AgentDependencies.project_id := Some project_id |}.

Definition unbound : AgentDependencies.t :=
  {| AgentDependencies.project_id := None |}.

(** The tool calls made during a turn: those of the agent run, which starts
    on the session that holds the user message. *)
Definition turn_calls `{RT : PyRuntime} {ProjectStatus : Type} `{SE : PyEnum ProjectStatus}
    (orchestrator_agent : string -> Model) (project_id : UUID) (user_message : string)
    (s : Session ProjectStatus) : list ToolCall :=
  calls_made (orchestrator_agent user_message) (bound_to project_id)
    (save_conversation_message project_id USER user_message s).2.

(** A model that files a note through [save_message] and then answers. *)
Definition note_taking_agent (user_message : string) : Model :=
  Request (Call_save_message "system" "note") (fun _ => Final "ok").


(** The model of the scenario in section 8 of the spec. *)
Definition reviewing_agent (user_message : string) : Model :=
  Request (Call_update_status "vision_review")
          (fun _ => Final "Moving to vision review").

(** A message of [demo_project]. *)
Definition demo_message (role : MessageRole) (content : string) (timestamp : datetime)
    : ConversationMessage.t :=
  {| ConversationMessage.project_id := 1%N;
     ConversationMessage.role := role;
     ConversationMessage.content := content;
     ConversationMessage.timestamp := timestamp |}.


(** The session after the turn of [note_taking_agent] on "hi". *)
Definition noted_session : Session NamedStatus := {|
  projects := projects demo_session;
  messages := [demo_message USER "hi" 0; demo_message SYSTEM "note" 1;
               demo_message ASSISTANT "ok" 2];
  ticks := 3
|}.


(** [demo_project] once it has been moved to the vision review. *)
Definition reviewed_project : Project.t NamedStatus := {|
  Project.id := 1%N;
  Project.name := "shop";
  Project.description := None;
  Project.status := VISION_REVIEW;
  Project.github_repo_url := None;
  Project.telegram_chat_id := None;
  Project.vision_document := None;
  Project.created_at := 0;
  Project.updated_at := 1
|}.

(** The session after the turn of [reviewing_agent] on "let's start". *)
Definition reviewed_session : Session NamedStatus := {|
  projects := {[ 1%N := reviewed_project ]};
  messages := [demo_message USER "let's start" 0;
               demo_message ASSISTANT "Moving to vision review" 2];
  ticks := 3
|}.

(** A model that looks at the project first and answers; it would save a
    note only if the project could not be read, which does not happen on
    [demo_session]. *)
Definition cautious_agent (user_message : string) : Model :=
  Request Call_get_project_context
          (fun r => match r with
                    | ReturnDict d =>
                        match d !! "error" with
                        | Some _ => Request (Call_save_message "system" "no project")
                                            (fun _ => Final "sorry")
                        | None => Final "hello"
                        end
                    | _ => Final "hello"
                    end).

(** A model that asks for a status that does not exist and then answers. *)
Definition confused_agent (user_message : string) : Model :=
  Request (Call_update_status "done")
          (fun r => match r with
                    | ReturnStr text => Final text
                    | _ => Final "ok"
                    end).

(** A small vision document. *)
Definition demo_vision : JSON := JDict [("goal", JStr "sell books")].

(** The session after a turn that answers "hi" with "hello" and writes
    nothing else. *)
Definition answered_session : Session NamedStatus := {|
  projects := projects demo_session;
  messages := [demo_message USER "hi" 0; demo_message ASSISTANT "hello" 1];
  ticks := 2
|}.

(** The session after a second such turn, on "again". *)
Definition answered_twice_session : Session NamedStatus := {|
  projects := projects demo_session;
  messages := [demo_message USER "hi" 0; demo_message ASSISTANT "hello" 1;
               demo_message USER "again" 2; demo_message ASSISTANT "hello" 3];
  ticks := 4
|}.

(** * Properties *)

(** ** The two enums keep the laws of an [Enum] declaration *)

#[global] Instance MessageRole_laws : PyEnumLaws MessageRole.
Proof.
  split.
  - intros []; cbn; set_solver.
  - by apply (bool_decide_unpack _).
  - by intros [].
  - by intros [].
Qed.

#[global] Instance NamedStatus_laws : PyEnumLaws NamedStatus.
Proof.
  split.
  - intros []; cbn; set_solver.
  - by apply (bool_decide_unpack _).
  - by intros [].
  - by intros [].
Qed.

(** ** Enum lookup *)

Section EnumLookup.
Context `{RT : PyRuntime} {E : Type} `{EN : PyEnum E}.

Lemma enum_getitem_Some (key : string) (m : E) :
  enum_getitem key = Some m -> member_name m = key.
Proof.
  unfold enum_getitem. intros Hfind.
  apply find_some in Hfind as [_ Hname].
  by apply bool_decide_eq_true in Hname.
Qed.

Lemma find_by_name (l : list E) (m : E) :
  NoDup (member_name <$> l) -> m ∈ l ->
  List.find (fun x => bool_decide (member_name x = member_name m)) l = Some m.
Proof.
  induction l as [|x l IH]; intros Hnd Hin.
  - by apply elem_of_nil in Hin.
  - cbn in *. apply NoDup_cons in Hnd as [Hx Hnd].
    apply elem_of_cons in Hin as [->|Hin].
    + by rewrite bool_decide_eq_true_2.
    + rewrite bool_decide_eq_false_2; [by apply IH|].
      intros Heq. apply Hx. rewrite Heq. by apply list_elem_of_fmap_2.
Qed.

Context {EL : PyEnumLaws E}.

Lemma enum_getitem_member_name (m : E) : enum_getitem (member_name m) = Some m.
Proof.
  unfold enum_getitem. apply find_by_name.
  - apply member_names_nodup.
  - apply members_all.
Qed.

Lemma str_upper_member_name (m : E) : str_upper (member_name m) = member_name m.
Proof. rewrite str_upper_ascii; [apply member_names_upper | apply member_names_ascii]. Qed.

(** A spelling of a member, letter case aside, upper-cases to its name. *)
Lemma enum_getitem_spelling (candidate : string) (m : E) :
  same_ignoring_case candidate (member_name m) ->
  enum_getitem (str_upper candidate) = Some m.
Proof.
  unfold same_ignoring_case. intros ->.
  rewrite str_upper_member_name. apply enum_getitem_member_name.
Qed.

(** A string that spells no member upper-cases to no name. *)
Lemma enum_getitem_no_spelling (candidate : string) :
  (forall m : E, ~ same_ignoring_case candidate (member_name m)) ->
  enum_getitem (str_upper candidate) = None.
Proof.
  intros Hno. destruct (enum_getitem (str_upper candidate)) as [m|] eqn:Hget; [|done].
  exfalso. apply (Hno m). unfold same_ignoring_case.
  apply enum_getitem_Some in Hget. by rewrite str_upper_member_name.
Qed.

End EnumLookup.

Section ToolProperties.
Context `{RT : PyRuntime}.
Context {ProjectStatus : Type} `{SE : PyEnum ProjectStatus} {SL : PyEnumLaws ProjectStatus}.

Abbreviation session := (Session ProjectStatus).

(** ** Rejected arguments *)

(** C1. With a project bound, [save_message] called with a role that spells
    no member of [MessageRole] in any letter case appends nothing, but it
    does not hand back a string either: the [KeyError] of the enum lookup
    leaves the tool. *)
Theorem save_message_unknown_role_raises
    (ctx : AgentDependencies.t) (project_id : UUID) (role content : string) (s : session) :
  AgentDependencies.project_id ctx = Some project_id ->
  (forall r : MessageRole, ~ same_ignoring_case role (member_name r)) ->
  save_message ctx role content s = (Raise (KeyError (str_upper role)), s).
Proof.
  intros Hbound Hno. unfold save_message. rewrite Hbound.
  unfold bind, getitem. by rewrite (enum_getitem_no_spelling role Hno).
Qed.

(** C2. With a project bound, [update_status] called with a name that spells
    no member of [ProjectStatus] in any letter case returns the rejection
    string and leaves the whole session, the status of the project included,
    as it was; nothing is raised. *)
Theorem update_status_unknown_name_rejected
    (ctx : AgentDependencies.t) (project_id : UUID) (new_status : string) (s : session) :
  AgentDependencies.project_id ctx = Some project_id ->
  (forall m : ProjectStatus, ~ same_ignoring_case new_status (member_name m)) ->
  update_status ctx new_status s
  = (Return ("Error: Invalid status '" +:+ new_status +:+ "'"), s).
Proof.
  intros Hbound Hno. unfold update_status. rewrite Hbound.
  unfold try_except_KeyError, bind, getitem.
  by rewrite (enum_getitem_no_spelling new_status Hno).
Qed.

(** ** No project bound *)

(** C5. Without a project bound to the turn, every tool returns a value that
    reports the problem (a string, a dict or a list of dicts), raises
    nothing, and leaves the session as it was. *)
Theorem tool_without_project_is_harmless
    (ctx : AgentDependencies.t) (c : ToolCall) (s : session) :
  AgentDependencies.project_id ctx = None ->
  exists r : ToolReturn,
    call_tool ctx c s = (Return r, s) /\
    reports_error r = true /\
    r = match c with
        | Call_get_project_context => ReturnDict {[ "error" := PyStr "No active project" ]}
        | Call_get_conversation _ => ReturnList [ {[ "error" := PyStr "No active project" ]} ]
        | _ => ReturnStr "Error: No active project"
        end.
Proof.
  intros Hnone.
  destruct c; cbn; unfold bind, save_message, get_project_context, get_conversation,
    update_status, save_vision_document; rewrite Hnone; cbn;
    eexists; (split; [reflexivity|]); split; done.
Qed.

(** ** Status updates *)

(** What a successful [update_status] leaves behind: the row of the bound
    project with the new status and a fresh [updated_at], and nothing else
    touched. *)
Lemma update_status_spelling_run
    (ctx : AgentDependencies.t) (project_id : UUID) (new_status : string)
    (m : ProjectStatus) (p : Project.t ProjectStatus) (s : session) :
  AgentDependencies.project_id ctx = Some project_id ->
  projects s !! project_id = Some p ->
  same_ignoring_case new_status (member_name m) ->
  update_status ctx new_status s
  = (Return ("Project status updated to " +:+ new_status),
     {| projects :=
          <[project_id :=
              {| Project.id := Project.id p;
                 Project.name := Project.name p;
                 Project.description := Project.description p;
                 Project.status := m;
                 Project.github_repo_url := Project.github_repo_url p;
                 Project.telegram_chat_id := Project.telegram_chat_id p;
                 Project.vision_document := Project.vision_document p;
                 Project.created_at := Project.created_at p;
                 Project.updated_at := clock (ticks s) |}]> (projects s);
        messages := messages s;
        ticks := S (ticks s) |}).
Proof.
  intros Hbound Hp Hspell. unfold update_status. rewrite Hbound.
  unfold try_except_KeyError, bind, getitem.
  rewrite (enum_getitem_spelling new_status m Hspell). cbn.
  unfold update_project_status. by rewrite Hp.
Qed.

(** C6. On an existing bound project, [update_status] called with any
    spelling, letter case aside, of a member of [ProjectStatus] sets the
    status of the project to that member, stamps [updated_at] with the clock
    reading of the write, and returns the confirmation. *)
Theorem update_status_valid_spelling_updates
    (ctx : AgentDependencies.t) (project_id : UUID) (new_status : string)
    (m : ProjectStatus) (p : Project.t ProjectStatus) (s : session) :
  AgentDependencies.project_id ctx = Some project_id ->
  projects s !! project_id = Some p ->
  same_ignoring_case new_status (member_name m) ->
  exists (p' : Project.t ProjectStatus) (s' : session),
    update_status ctx new_status s
    = (Return ("Project status updated to " +:+ new_status), s') /\
    projects s' !! project_id = Some p' /\
    Project.status p' = m /\
    Project.updated_at p' = clock (ticks s) /\
    (forall i : nat, (i <= ticks s)%nat -> clock i <= Project.updated_at p') /\
    Project.id p' = Project.id p /\
    Project.vision_document p' = Project.vision_document p /\
    (forall other : UUID, other <> project_id -> projects s' !! other = projects s !! other) /\
    messages s' = messages s.
Proof.
  intros Hbound Hp Hspell.
  rewrite (update_status_spelling_run ctx project_id new_status m p s Hbound Hp Hspell).
  eexists _, _. split; [reflexivity|]. cbn.
  rewrite lookup_insert_eq. repeat split; try done.
  - intros i Hi. by apply clock_mono.
  - intros other Hne. by rewrite lookup_insert_ne.
Qed.

(** C7. Whatever status an existing bound project is in, [update_status]
    called with a spelling of any member is accepted and the project ends in
    that member: the status before plays no part. *)
Theorem update_status_any_phase_follows_any
    (current target : ProjectStatus)
    (ctx : AgentDependencies.t) (project_id : UUID) (new_status : string)
    (p : Project.t ProjectStatus) (s : session) :
  AgentDependencies.project_id ctx = Some project_id ->
  projects s !! project_id = Some p ->
  Project.status p = current ->
  same_ignoring_case new_status (member_name target) ->
  (update_status ctx new_status s).1
  = Return ("Project status updated to " +:+ new_status) /\
  Project.status <$> (projects (update_status ctx new_status s).2 !! project_id)
  = Some target.
Proof.
  intros Hbound Hp _ Hspell.
  rewrite (update_status_spelling_run ctx project_id new_status target p s Hbound Hp Hspell).
  cbn. by rewrite lookup_insert_eq.
Qed.

(** ** The project snapshot *)

(** C8. On an existing bound project, [get_project_context] changes nothing
    and returns a dict with nine keys: the fields of section 3 of the spec,
    the vision document replaced by the flag [has_vision_document], and
    besides them [name] and [description]. Every value is a scalar read off
    the row; the document itself appears under no key. *)
Theorem get_project_context_snapshot
    (ctx : AgentDependencies.t) (project_id : UUID)
    (p : Project.t ProjectStatus) (s : session) :
  AgentDependencies.project_id ctx = Some project_id ->
  projects s !! project_id = Some p ->
  exists d : gmap string PyVal,
    get_project_context ctx s = (Return d, s) /\
    dom d = section3_keys ∪ {[ "name"; "description" ]} /\
    d !! "id" = Some (PyStr (uuid_str (Project.id p))) /\
    d !! "name" = Some (PyStr (Project.name p)) /\
    d !! "description" = Some (py_optional_str (Project.description p)) /\
    d !! "status" = Some (PyStr (member_value (Project.status p))) /\
    d !! "github_repo_url" = Some (py_optional_str (Project.github_repo_url p)) /\
    d !! "telegram_chat_id" = Some (py_optional_str (Project.telegram_chat_id p)) /\
    d !! "has_vision_document"
      = Some (PyBool (is_not_None (Project.vision_document p))) /\
    d !! "created_at" = Some (PyStr (isoformat (Project.created_at p))) /\
    d !! "updated_at" = Some (PyStr (isoformat (Project.updated_at p))).
Proof.
  intros Hbound Hp. unfold get_project_context. rewrite Hbound.
  unfold bind, get_project, ret. rewrite Hp.
  eexists. split; [reflexivity|]. split.
  - rewrite dom_list_to_map_L. unfold section3_keys. cbn. set_solver.
  - repeat split; reflexivity.
Qed.


End ToolProperties.

(** ** What a run of the agent does to the ledger *)

Section TurnProperties.
Context `{RT : PyRuntime}.
Context {ProjectStatus : Type} `{SE : PyEnum ProjectStatus}.

Abbreviation session := (Session ProjectStatus).

Lemma ledger_extended_refl (P : ConversationMessage.t -> Prop) (s : session) :
  ledger_extended P [] s s.
Proof. split; [by rewrite app_nil_r | split; [constructor | done]]. Qed.

Lemma ledger_extended_trans (P : ConversationMessage.t -> Prop)
    (e1 e2 : list ConversationMessage.t) (s1 s2 s3 : session) :
  ledger_extended P e1 s1 s2 ->
  ledger_extended P e2 s2 s3 ->
  ledger_extended P (e1 ++ e2) s1 s3.
Proof.
  intros (Hm1 & Hf1 & Hd1) (Hm2 & Hf2 & Hd2). split; [|split].
  - by rewrite Hm2, Hm1, app_assoc.
  - by apply Forall_app.
  - intros q. by rewrite Hd2, Hd1.
Qed.

Lemma ledger_extended_weaken (P Q : ConversationMessage.t -> Prop)
    (extra : list ConversationMessage.t) (s s' : session) :
  (forall m, P m -> Q m) ->
  ledger_extended P extra s s' -> ledger_extended Q extra s s'.
Proof.
  intros HPQ (Hm & Hf & Hd). split; [done | split; [|done]].
  by eapply Forall_impl.
Qed.

Lemma insert_existing_same_keys (project_id : UUID) (p p' : Project.t ProjectStatus)
    (m : gmap UUID (Project.t ProjectStatus)) (q : UUID) :
  m !! project_id = Some p ->
  is_Some (<[project_id := p']> m !! q) <-> is_Some (m !! q).
Proof.
  intros Hp. destruct (decide (project_id = q)) as [<-|Hne].
  - rewrite lookup_insert_eq, Hp. by split.
  - by rewrite lookup_insert_ne.
Qed.

(** One tool call: only [save_message] can add to the ledger, and what it
    adds is the message it was asked to store; no tool creates or deletes a
    project. *)
Lemma call_tool_extends (project_id : UUID) (c : ToolCall) (s : session) :
  exists extra,
    ledger_extended
      (fun m => ConversationMessage.project_id m = project_id /\ saved_by c m)
      extra s (call_tool (bound_to project_id) c s).2.
Proof.
  destruct c as [role content| |limit|new_status|vision_doc]; cbn.
  - unfold bind, save_message, getitem; cbn.
    destruct (enum_getitem (E:=MessageRole) (str_upper role)) as [role_enum|] eqn:Hrole;
      cbn; [|exists []; apply ledger_extended_refl].
    unfold save_conversation_message.
    destruct (projects s !! project_id); cbn; [|exists []; apply ledger_extended_refl].
    eexists [_]. split; [reflexivity|]. split; [|done].
    by repeat constructor.
  - exists [].
    unfold bind, get_project_context, get_project; cbn.
    destruct (projects s !! project_id); apply ledger_extended_refl.
  - exists [].
    unfold bind, get_conversation, get_conversation_history; cbn.
    destruct (default 20 limit <=? 0); [apply ledger_extended_refl|].
    destruct (projects s !! project_id); apply ledger_extended_refl.
  - exists [].
    unfold bind, update_status, try_except_KeyError, getitem; cbn.
    destruct (enum_getitem (E:=ProjectStatus) (str_upper new_status)) as [status_enum|]; cbn;
      [|apply ledger_extended_refl].
    unfold update_project_status.
    destruct (projects s !! project_id) as [p|] eqn:Hp; cbn;
      [|apply ledger_extended_refl].
    split; [by rewrite app_nil_r | split; [constructor|]].
    intros q. by eapply insert_existing_same_keys.
  - exists [].
    unfold bind, save_vision_document, update_project_vision; cbn.
    destruct (projects s !! project_id) as [p|] eqn:Hp; cbn;
      [|apply ledger_extended_refl].
    split; [by rewrite app_nil_r | split; [constructor|]].
    intros q. by eapply insert_existing_same_keys.
Qed.

(** A whole run: the ledger only grows, by messages of the bound project, and
    the same projects exist afterwards. *)
Lemma Agent_run_extends (project_id : UUID) (model : Model) (s : session) :
  exists extra,
    ledger_extended (fun m => ConversationMessage.project_id m = project_id) extra s
      (Agent_run model (bound_to project_id) s).2.
Proof.
  revert s. induction model as [data|e|c resume IH]; intros s.
  - exists []. apply ledger_extended_refl.
  - exists []. apply ledger_extended_refl.
  - destruct (call_tool_extends project_id c s) as (e1 & Hcall).
    eapply ledger_extended_weaken
      with (Q := fun m => ConversationMessage.project_id m = project_id)
      in Hcall; [|by intros m [Hpid _]].
    cbn [Agent_run]. unfold bind.
    destruct (call_tool (bound_to project_id) c s) as [[r|e] s1] eqn:Hrun; cbn in Hcall.
    + destruct (IH r s1) as (e2 & Hrest).
      exists (e1 ++ e2). by eapply ledger_extended_trans.
    + by exists e1.
Qed.

(** One tool call, by its outcome: a [save_message] call that returns has
    stored one message, the one it was asked to store; any other call, and
    any call that raises, leaves the ledger as it was. *)
Lemma call_tool_stores (project_id : UUID) (c : ToolCall) (s : session) :
  match (call_tool (bound_to project_id) c s).1 with
  | Return _ =>
      if is_save_message c
      then exists m, messages (call_tool (bound_to project_id) c s).2 = messages s ++ [m] /\
                     stores project_id c m
      else messages (call_tool (bound_to project_id) c s).2 = messages s
  | Raise _ => messages (call_tool (bound_to project_id) c s).2 = messages s
  end.
Proof.
  destruct c as [role content| |limit|new_status|vision_doc]; cbn.
  - unfold bind, save_message, getitem; cbn.
    destruct (enum_getitem (E:=MessageRole) (str_upper role)) as [role_enum|] eqn:Hrole;
      cbn; [|done].
    unfold save_conversation_message.
    destruct (projects s !! project_id); cbn; [|done].
    eexists. split; [reflexivity|]. by repeat split.
  - unfold bind, get_project_context, get_project; cbn.
    by destruct (projects s !! project_id).
  - unfold bind, get_conversation, get_conversation_history; cbn.
    destruct (default 20 limit <=? 0); [done|]. by destruct (projects s !! project_id).
  - unfold bind, update_status, try_except_KeyError, getitem; cbn.
    destruct (enum_getitem (E:=ProjectStatus) (str_upper new_status)) as [status_enum|];
      cbn; [|done].
    unfold update_project_status. by destruct (projects s !! project_id).
  - unfold bind, save_vision_document, update_project_vision; cbn.
    by destruct (projects s !! project_id).
Qed.

(** A whole run, by the calls it makes. When the run returns, the messages it
    has added are those of its [save_message] calls, one for each call and in
    the order of the calls. When it raises, they are those of the first of
    these calls: a call that raised has stored nothing. *)
Lemma Agent_run_stores (project_id : UUID) (model : Model) (s : session) :
  exists (saved : list ConversationMessage.t) (cs : list ToolCall),
    messages (Agent_run model (bound_to project_id) s).2 = messages s ++ saved /\
    Forall2 (stores project_id) cs saved /\
    cs `prefix_of` save_message_calls (calls_made model (bound_to project_id) s) /\
    (forall r, (Agent_run model (bound_to project_id) s).1 = Return r ->
               cs = save_message_calls (calls_made model (bound_to project_id) s)).
Proof.
  revert s. induction model as [data|e|c resume IH]; intros s.
  - exists [], []. cbn. by rewrite app_nil_r.
  - exists [], []. cbn. by rewrite app_nil_r.
  - pose proof (call_tool_stores project_id c s) as Hcall.
    cbn [Agent_run calls_made]. unfold bind, save_message_calls.
    destruct (call_tool (bound_to project_id) c s) as [[r|e] s1]; cbn [fst snd] in Hcall |- *.
    + destruct (IH r s1) as (saved & cs & Hm & Hall & Hprefix & Hexact).
      destruct (is_save_message c) eqn:Hc.
      * destruct Hcall as (m & Hm1 & Hstores).
        exists (m :: saved), (c :: cs).
        rewrite filter_cons_True by done.
        split; [by rewrite Hm, Hm1, <- app_assoc|].
        split; [by constructor|].
        split; [by apply prefix_cons|].
        intros r' Hr. by rewrite (Hexact r' Hr).
      * exists saved, cs.
        rewrite filter_cons_False by (by rewrite Hc).
        split; [by rewrite Hm, Hcall|]. done.
    + exists [], []. rewrite app_nil_r.
      split; [done|]. split; [constructor|]. split; [apply prefix_nil | done].
Qed.

(** ** One turn *)

Lemma save_conversation_message_Return (project_id : UUID) (role : MessageRole)
    (content : string) (s s' : session) (m : ConversationMessage.t) :
  save_conversation_message project_id role content s = (Return m, s') ->
  m = {| ConversationMessage.project_id := project_id;
         ConversationMessage.role := role;
         ConversationMessage.content := content;
         ConversationMessage.timestamp := clock (ticks s) |} /\
  messages s' = messages s ++ [m] /\
  projects s' = projects s /\
  is_Some (projects s !! project_id).
Proof.
  unfold save_conversation_message.
  destruct (projects s !! project_id) as [p|]; [|done].
  intros [= <- <-]. cbn. eauto.
Qed.

Lemma save_conversation_message_existing (project_id : UUID) (role : MessageRole)
    (content : string) (s : session) :
  is_Some (projects s !! project_id) ->
  exists m s', save_conversation_message project_id role content s = (Return m, s').
Proof.
  intros [p Hp]. unfold save_conversation_message. rewrite Hp. eauto.
Qed.

(** The three steps of a turn, read off a run that returned. *)
Lemma run_orchestrator_Return (orchestrator_agent : string -> Model)
    (project_id : UUID) (user_message reply : string) (s s' : session) :
  run_orchestrator orchestrator_agent project_id user_message s = (Return reply, s') ->
  exists (u a : ConversationMessage.t) (s1 s2 : session),
    save_conversation_message project_id USER user_message s = (Return u, s1) /\
    Agent_run (orchestrator_agent user_message) (bound_to project_id) s1
    = (Return reply, s2) /\
    save_conversation_message project_id ASSISTANT reply s2 = (Return a, s').
Proof.
  unfold run_orchestrator, bind. fold (bound_to project_id).
  destruct (save_conversation_message project_id USER user_message s)
    as [[u|e] s1] eqn:Hu; [|done].
  destruct (Agent_run (orchestrator_agent user_message) (bound_to project_id) s1)
    as [[r|e] s2] eqn:Hagent; [|done].
  destruct (save_conversation_message project_id ASSISTANT r s2)
    as [[a|e] s3] eqn:Ha; [|done].
  intros [= <- <-]. exists u, a, s1, s2. by repeat split.
Qed.

(** A turn on an existing project whose agent run returns does return: the
    reply can always be appended, since no tool deletes a project. *)
Lemma run_orchestrator_returns (orchestrator_agent : string -> Model)
    (project_id : UUID) (user_message reply : string)
    (s s1 s2 : session) (u : ConversationMessage.t) :
  save_conversation_message project_id USER user_message s = (Return u, s1) ->
  Agent_run (orchestrator_agent user_message) (bound_to project_id) s1
  = (Return reply, s2) ->
  exists s', run_orchestrator orchestrator_agent project_id user_message s
             = (Return reply, s').
Proof.
  intros Hu Hrun. unfold run_orchestrator, bind. fold (bound_to project_id).
  rewrite Hu, Hrun.
  apply save_conversation_message_Return in Hu as (_ & _ & Hprojects & Hsome).
  destruct (Agent_run_extends project_id (orchestrator_agent user_message) s1)
    as (extra & _ & _ & Hkeys).
  rewrite Hrun in Hkeys. cbn in Hkeys.
  destruct (save_conversation_message_existing project_id ASSISTANT reply s2)
    as (a & s' & Ha).
  { apply Hkeys. by rewrite Hprojects. }
  rewrite Ha. eauto.
Qed.

(** C3. A turn that succeeds has appended the user text as a USER message,
    then run the agent to its reply, then appended the reply as an ASSISTANT
    message, and returns the reply. The ledger has grown by the USER message
    first and the ASSISTANT message last; between them stand the messages that
    the [save_message] calls made during the run have stored, one for each
    call and in the order of the calls. So the turn adds exactly two messages
    when the run makes no [save_message] call. *)
Theorem run_orchestrator_success_ledger (orchestrator_agent : string -> Model)
    (project_id : UUID) (user_message reply : string) (s s' : session) :
  run_orchestrator orchestrator_agent project_id user_message s = (Return reply, s') ->
  exists (u a : ConversationMessage.t) (s1 s2 : session)
         (saved : list ConversationMessage.t),
    save_conversation_message project_id USER user_message s = (Return u, s1) /\
    Agent_run (orchestrator_agent user_message) (bound_to project_id) s1
    = (Return reply, s2) /\
    save_conversation_message project_id ASSISTANT reply s2 = (Return a, s') /\
    u = {| ConversationMessage.project_id := project_id;
           ConversationMessage.role := USER;
           ConversationMessage.content := user_message;
           ConversationMessage.timestamp := clock (ticks s) |} /\
    a = {| ConversationMessage.project_id := project_id;
           ConversationMessage.role := ASSISTANT;
           ConversationMessage.content := reply;
           ConversationMessage.timestamp := clock (ticks s2) |} /\
    messages s' = messages s ++ [u] ++ saved ++ [a] /\
    Forall2 (stores project_id)
      (save_message_calls
         (calls_made (orchestrator_agent user_message) (bound_to project_id) s1))
      saved /\
    (save_message_calls
       (calls_made (orchestrator_agent user_message) (bound_to project_id) s1) = [] ->
     messages s' = messages s ++ [u; a]).
Proof.
  intros Hrun.
  apply run_orchestrator_Return in Hrun as (u & a & s1 & s2 & Hu & Hagent & Ha).
  destruct (Agent_run_stores project_id (orchestrator_agent user_message) s1)
    as (saved & cs & Hsaved & Hstored & _ & Hexact).
  rewrite Hagent in Hsaved, Hexact. cbn in Hsaved, Hexact.
  rewrite (Hexact reply eq_refl) in Hstored.
  exists u, a, s1, s2, saved. repeat (split; [done|]).
  apply save_conversation_message_Return in Hu as (Hu & Hm1 & _ & _).
  apply save_conversation_message_Return in Ha as (Ha & Hm2 & _ & _).
  assert (messages s' = messages s ++ [u] ++ saved ++ [a]) as Hledger.
  { rewrite Hm2, Hsaved, Hm1. by rewrite <- !app_assoc. }
  repeat (split; [done|]).
  intros Hnone. rewrite Hnone in Hstored.
  apply Forall2_nil_inv_l in Hstored as ->. by rewrite Hledger.
Qed.


(** C10. The text a successful turn returns is the content of the ASSISTANT
    message the turn has appended to the ledger of the project, which is the
    last message of the ledger when the turn ends. *)
Theorem run_orchestrator_reply_is_persisted (orchestrator_agent : string -> Model)
    (project_id : UUID) (user_message reply : string) (s s' : session) :
  run_orchestrator orchestrator_agent project_id user_message s = (Return reply, s') ->
  exists a : ConversationMessage.t,
    last (messages s') = Some a /\
    ConversationMessage.project_id a = project_id /\
    ConversationMessage.role a = ASSISTANT /\
    ConversationMessage.content a = reply /\
    (length (messages s) < length (messages s'))%nat.
Proof.
  intros Hrun.
  apply run_orchestrator_Return in Hrun as (u & a & s1 & s2 & Hu & Hagent & Ha).
  destruct (Agent_run_extends project_id (orchestrator_agent user_message) s1)
    as (saved & Hsaved & _ & _).
  rewrite Hagent in Hsaved. cbn in Hsaved.
  apply save_conversation_message_Return in Hu as (_ & Hm1 & _ & _).
  apply save_conversation_message_Return in Ha as (-> & Hm2 & _ & _).
  eexists. rewrite Hm2, last_snoc. repeat split.
  rewrite Hsaved, Hm1, !length_app. cbn. lia.
Qed.

End TurnProperties.

(** * Further properties of the tools *)

Section MoreToolProperties.
Context `{RT : PyRuntime}.
Context {ProjectStatus : Type} `{SE : PyEnum ProjectStatus}.

Abbreviation session := (Session ProjectStatus).

(** ** Saving a message *)

(** What a successful [save_message] leaves behind. *)
Lemma save_message_valid_role_appends_run
    (ctx : AgentDependencies.t) (project_id : UUID) (role content : string)
    (r : MessageRole) (p : Project.t ProjectStatus) (s : session) :
  AgentDependencies.project_id ctx = Some project_id ->
  projects s !! project_id = Some p ->
  same_ignoring_case role (member_name r) ->
  save_message ctx role content s
  = (Return ("Message saved as " +:+ role),
     {| projects := projects s;
        messages := messages s ++
          [ {| ConversationMessage.project_id := project_id;
               ConversationMessage.role := r;
               ConversationMessage.content := content;
               ConversationMessage.timestamp := clock (ticks s) |} ];
        ticks := S (ticks s) |}).
Proof.
  intros Hbound Hp Hspell. unfold save_message. rewrite Hbound.
  unfold bind, getitem. rewrite (enum_getitem_spelling role r Hspell). cbn.
  unfold save_conversation_message. by rewrite Hp.
Qed.

(** X1. On an existing bound project, [save_message] called with any
    spelling, letter case aside, of a role appends one message to the end of
    the ledger: for the bound project, with that role and the content as
    given. The project table is untouched and the confirmation repeats the
    role as it was typed. *)
Theorem save_message_valid_role_appends
    (ctx : AgentDependencies.t) (project_id : UUID) (role content : string)
    (r : MessageRole) (p : Project.t ProjectStatus) (s : session) :
  AgentDependencies.project_id ctx = Some project_id ->
  projects s !! project_id = Some p ->
  same_ignoring_case role (member_name r) ->
  save_message ctx role content s
  = (Return ("Message saved as " +:+ role),
     {| projects := projects s;
        messages := messages s ++
          [ {| ConversationMessage.project_id := project_id;
               ConversationMessage.role := r;
               ConversationMessage.content := content;
               ConversationMessage.timestamp := clock (ticks s) |} ];
        ticks := S (ticks s) |}).
Proof.
  intros Hbound Hp Hspell. unfold save_message. rewrite Hbound.
  unfold bind, getitem. rewrite (enum_getitem_spelling role r Hspell). cbn.
  unfold save_conversation_message. by rewrite Hp.
Qed.

(** X2. Letter case never matters to what [save_message] and [update_status]
    do: two spellings that upper-case to the same string leave the same
    session behind and raise the same exceptions. Only the text echoed in
    the returned string can differ. *)
Theorem tools_ignore_letter_case
    (ctx : AgentDependencies.t) (a b content : string) (s : session) :
  same_ignoring_case a b ->
  (save_message ctx a content s).2 = (save_message ctx b content s).2 /\
  (forall e, (save_message ctx a content s).1 = Raise e <->
             (save_message ctx b content s).1 = Raise e) /\
  (update_status ctx a s).2 = (update_status ctx b s).2 /\
  (forall e, (update_status ctx a s).1 = Raise e <->
             (update_status ctx b s).1 = Raise e).
Proof.
  unfold same_ignoring_case. intros Hcase.
  unfold save_message, update_status.
  destruct (AgentDependencies.project_id ctx) as [project_id|]; [|done].
  unfold try_except_KeyError, bind, getitem. rewrite Hcase.
  split; [|split; [|split]].
  - destruct (enum_getitem (E:=MessageRole) (str_upper b)) as [role_enum|]; cbn; [|done].
    by destruct (save_conversation_message project_id role_enum content s) as [[?|?] ?].
  - intros e.
    destruct (enum_getitem (E:=MessageRole) (str_upper b)) as [role_enum|]; cbn; [|done].
    by destruct (save_conversation_message project_id role_enum content s) as [[?|?] ?].
  - destruct (enum_getitem (E:=ProjectStatus) (str_upper b)) as [status_enum|]; cbn; [|done].
    by destruct (update_project_status project_id status_enum s) as [[?|[]] ?].
  - intros e.
    destruct (enum_getitem (E:=ProjectStatus) (str_upper b)) as [status_enum|]; cbn; [|done].
    by destruct (update_project_status project_id status_enum s) as [[?|[]] ?].
Qed.

(** ** Telling success from failure *)

(** X3. Whenever a tool hands back a string, the string starts with [Error:]
    exactly when the call has written nothing: the three confirmations never
    start that way and each of them comes with a write. *)
Theorem string_result_reports_error_iff_unchanged
    (ctx : AgentDependencies.t) (c : ToolCall) (s s' : session) (r : string) :
  call_tool ctx c s = (Return (ReturnStr r), s') ->
  reports_error (ReturnStr r) = true <-> s' = s.
Proof.
  assert (forall (P : gmap UUID (Project.t ProjectStatus)) (l : list ConversationMessage.t),
            {| projects := P; messages := l; ticks := S (ticks s) |} <> s) as Hfresh.
  { intros P l Heq. apply (f_equal ticks) in Heq. cbn in Heq. lia. }
  destruct c as [role content| |limit|new_status|vision_doc]; cbn.
  - unfold bind, save_message.
    destruct (AgentDependencies.project_id ctx) as [project_id|]; cbn;
      [|by intros [= <- <-]].
    unfold bind, getitem.
    destruct (enum_getitem (E:=MessageRole) (str_upper role)) as [role_enum|]; cbn; [|done].
    unfold save_conversation_message.
    destruct (projects s !! project_id); cbn; [|done].
    intros [= <- <-]. cbn. split; [done|]. intros Heq. by apply Hfresh in Heq.
  - unfold bind. by destruct (get_project_context ctx s) as [[?|?] ?].
  - unfold bind. by destruct (get_conversation ctx (default 20 limit) s) as [[?|?] ?].
  - unfold bind, update_status.
    destruct (AgentDependencies.project_id ctx) as [project_id|]; cbn;
      [|by intros [= <- <-]].
    unfold try_except_KeyError, bind, getitem.
    destruct (enum_getitem (E:=ProjectStatus) (str_upper new_status)) as [status_enum|]; cbn;
      [|by intros [= <- <-]].
    unfold update_project_status.
    destruct (projects s !! project_id); cbn; [|done].
    intros [= <- <-]. cbn. split; [done|]. intros Heq. by apply Hfresh in Heq.
  - unfold bind, save_vision_document.
    destruct (AgentDependencies.project_id ctx) as [project_id|]; cbn;
      [|by intros [= <- <-]].
    unfold bind, update_project_vision.
    destruct (projects s !! project_id); cbn; [|done].
    intros [= <- <-]. cbn. split; [done|]. intros Heq. by apply Hfresh in Heq.
Qed.

(** ** The reading tools *)

(** The reading tools leave the session as it is, whatever they return. *)
Lemma reading_tools_same_session (ctx : AgentDependencies.t) (limit : Z) (s : session) :
  (get_project_context ctx s).2 = s /\ (get_conversation ctx limit s).2 = s.
Proof.
  unfold get_project_context, get_conversation.
  destruct (AgentDependencies.project_id ctx) as [project_id|]; [|done].
  unfold bind, get_project, get_conversation_history. cbn. split.
  - by destruct (projects s !! project_id).
  - destruct (limit <=? 0); [done|]. by destruct (projects s !! project_id).
Qed.

(** X4. With a project bound, [get_conversation] turns the messages that the
    history query returns into dicts one for one and in the same order; each
    dict has exactly the keys [role], [content] and [timestamp], holding the
    value of the role, the content as stored and the ISO form of the time. *)
Theorem get_conversation_projects_history
    (ctx : AgentDependencies.t) (project_id : UUID) (limit : Z)
    (history : list ConversationMessage.t) (s s1 : session) :
  AgentDependencies.project_id ctx = Some project_id ->
  get_conversation_history project_id limit s = (Return history, s1) ->
  exists l : list (gmap string PyVal),
    get_conversation ctx limit s = (Return l, s1) /\
    length l = length history /\
    forall (i : nat) (msg : ConversationMessage.t),
      history !! i = Some msg ->
      exists d : gmap string PyVal,
        l !! i = Some d /\
        dom d = {[ "role"; "content"; "timestamp" ]} /\
        d !! "role" = Some (PyStr (member_value (ConversationMessage.role msg))) /\
        d !! "content" = Some (PyStr (ConversationMessage.content msg)) /\
        d !! "timestamp"
          = Some (PyStr (isoformat (ConversationMessage.timestamp msg))).
Proof.
  intros Hbound Hhistory. unfold get_conversation. rewrite Hbound.
  unfold bind. rewrite Hhistory. eexists. split; [reflexivity|].
  split; [by rewrite length_map|].
  intros i msg Hi. eexists. split.
  - rewrite list_lookup_fmap, Hi. reflexivity.
  - split; [|repeat split; reflexivity].
    rewrite dom_list_to_map_L. cbn. set_solver.
Qed.

(** ** Failures of the storage helpers *)

(** X5. [save_message], [get_conversation] and [save_vision_document] have no
    handler: when the storage helper they call raises, the tool raises the
    same exception and leaves the session as the helper left it. *)
Theorem tools_relay_storage_failures
    (ctx : AgentDependencies.t) (project_id : UUID) (e : Exn) (s s1 : session) :
  AgentDependencies.project_id ctx = Some project_id ->
  (forall (role content : string) (role_enum : MessageRole),
     enum_getitem (str_upper role) = Some role_enum ->
     save_conversation_message project_id role_enum content s = (Raise e, s1) ->
     save_message ctx role content s = (Raise e, s1)) /\
  (forall limit : Z,
     get_conversation_history project_id limit s = (Raise e, s1) ->
     get_conversation ctx limit s = (Raise e, s1)) /\
  (forall vision_doc : JSON,
     update_project_vision project_id vision_doc s = (Raise e, s1) ->
     save_vision_document ctx vision_doc s = (Raise e, s1)).
Proof.
  intros Hbound. split; [|split].
  - intros role content role_enum Hrole Hsave.
    unfold save_message. rewrite Hbound. unfold bind, getitem.
    rewrite Hrole. cbn. by rewrite Hsave.
  - intros limit Hhistory.
    unfold get_conversation. rewrite Hbound. unfold bind. by rewrite Hhistory.
  - intros vision_doc Hvision.
    unfold save_vision_document. rewrite Hbound. unfold bind. by rewrite Hvision.
Qed.

(** X6. The handler of [update_status] does not cover a failure of the
    storage helper. When the name is valid and [update_project_status] fails
    with NotFound, as it does for a project that does not exist, the
    exception leaves the tool: no rejection string is returned, and the
    session is as the helper left it. *)
Theorem update_status_relays_missing_project
    (ctx : AgentDependencies.t) (project_id missing : UUID) (new_status : string)
    (status_enum : ProjectStatus) (s s1 : session) :
  AgentDependencies.project_id ctx = Some project_id ->
  enum_getitem (str_upper new_status) = Some status_enum ->
  update_project_status project_id status_enum s = (Raise (NotFound missing), s1) ->
  update_status ctx new_status s = (Raise (NotFound missing), s1).
Proof.
  intros Hbound Hname Hupdate. unfold update_status. rewrite Hbound.
  unfold try_except_KeyError, bind, getitem. rewrite Hname. cbn.
  by rewrite Hupdate.
Qed.

(** ** One tool after another *)

Lemma get_project_context_existing
    (ctx : AgentDependencies.t) (project_id : UUID)
    (p : Project.t ProjectStatus) (s : session) :
  AgentDependencies.project_id ctx = Some project_id ->
  projects s !! project_id = Some p ->
  get_project_context ctx s
  = (Return (list_to_map
       [ ("id", PyStr (uuid_str (Project.id p)));
         ("name", PyStr (Project.name p));
         ("description", py_optional_str (Project.description p));
         ("status", PyStr (member_value (Project.status p)));
         ("github_repo_url", py_optional_str (Project.github_repo_url p));
         ("telegram_chat_id", py_optional_str (Project.telegram_chat_id p));
         ("has_vision_document", PyBool (is_not_None (Project.vision_document p)));
         ("created_at", PyStr (isoformat (Project.created_at p)));
         ("updated_at", PyStr (isoformat (Project.updated_at p))) ]), s).
Proof.
  intros Hbound Hp. unfold get_project_context. rewrite Hbound.
  unfold bind, get_project, ret. by rewrite Hp.
Qed.

(** X7. Saving a vision document shows in the project context through two
    entries only: on an existing bound project, [save_vision_document]
    returns its confirmation, and [get_project_context] afterwards has
    [has_vision_document] true and [updated_at] at the time of the write,
    every other entry being what it was before. The ledger is untouched. *)
Theorem save_vision_document_shows_in_context
    (ctx : AgentDependencies.t) (project_id : UUID) (vision_doc : JSON)
    (p : Project.t ProjectStatus) (s : session) :
  AgentDependencies.project_id ctx = Some project_id ->
  projects s !! project_id = Some p ->
  exists (s1 : session) (before after : gmap string PyVal),
    save_vision_document ctx vision_doc s
    = (Return "Vision document saved successfully", s1) /\
    messages s1 = messages s /\
    get_project_context ctx s = (Return before, s) /\
    get_project_context ctx s1 = (Return after, s1) /\
    after !! "has_vision_document" = Some (PyBool true) /\
    after !! "updated_at" = Some (PyStr (isoformat (clock (ticks s)))) /\
    forall key : string,
      key <> "has_vision_document" -> key <> "updated_at" ->
      after !! key = before !! key.
Proof.
  intros Hbound Hp.
  set (p' := {| Project.id := Project.id p;
                Project.name := Project.name p;
                Project.description := Project.description p;
                Project.status := Project.status p;
                Project.github_repo_url := Project.github_repo_url p;
                Project.telegram_chat_id := Project.telegram_chat_id p;
                Project.vision_document := Some vision_doc;
                Project.created_at := Project.created_at p;
                Project.updated_at := clock (ticks s) |}).
  set (s1 := {| projects := <[project_id := p']> (projects s);
                messages := messages s;
                ticks := S (ticks s) |}).
  assert (projects s1 !! project_id = Some p') as Hp' by apply lookup_insert_eq.
  exists s1. eexists _, _. split.
  { unfold save_vision_document. rewrite Hbound.
    unfold bind, update_project_vision. by rewrite Hp. }
  split; [reflexivity|]. split.
  { exact (get_project_context_existing ctx project_id p s Hbound Hp). }
  split.
  { exact (get_project_context_existing ctx project_id p' s1 Hbound Hp'). }
  split; [reflexivity|]. split; [reflexivity|].
  intros key Hflag Hupdated. subst p'.
  cbn [Project.id Project.name Project.description
    Project.status Project.github_repo_url Project.telegram_chat_id
    Project.vision_document Project.created_at Project.updated_at].
  cbn [list_to_map foldr uncurry fst snd].
  rewrite !(lookup_insert (M:=gmap string)).
  repeat case_decide; subst; done.
Qed.

(** X8. A status update shows in the project context: on an existing bound
    project, after [update_status] with a spelling of a member,
    [get_project_context] reports the value of that member under [status]
    and the time of the write under [updated_at]; every other entry is what
    it was before. *)
Theorem update_status_shows_in_context
    {SL : PyEnumLaws ProjectStatus}
    (ctx : AgentDependencies.t) (project_id : UUID) (new_status : string)
    (m : ProjectStatus) (p : Project.t ProjectStatus) (s : session) :
  AgentDependencies.project_id ctx = Some project_id ->
  projects s !! project_id = Some p ->
  same_ignoring_case new_status (member_name m) ->
  exists (s1 : session) (before after : gmap string PyVal),
    update_status ctx new_status s
    = (Return ("Project status updated to " +:+ new_status), s1) /\
    get_project_context ctx s = (Return before, s) /\
    get_project_context ctx s1 = (Return after, s1) /\
    after !! "status" = Some (PyStr (member_value m)) /\
    after !! "updated_at" = Some (PyStr (isoformat (clock (ticks s)))) /\
    forall key : string,
      key <> "status" -> key <> "updated_at" ->
      after !! key = before !! key.
Proof.
  intros Hbound Hp Hspell.
  rewrite (update_status_spelling_run ctx project_id new_status m p s Hbound Hp Hspell).
  set (p' := {| Project.id := Project.id p;
                Project.name := Project.name p;
                Project.description := Project.description p;
                Project.status := m;
                Project.github_repo_url := Project.github_repo_url p;
                Project.telegram_chat_id := Project.telegram_chat_id p;
                Project.vision_document := Project.vision_document p;
                Project.created_at := Project.created_at p;
                Project.updated_at := clock (ticks s) |}).
  set (s1 := {| projects := <[project_id := p']> (projects s);
                messages := messages s;
                ticks := S (ticks s) |}).
  assert (projects s1 !! project_id = Some p') as Hp' by apply lookup_insert_eq.
  exists s1. eexists _, _. split; [reflexivity|]. split.
  { exact (get_project_context_existing ctx project_id p s Hbound Hp). }
  split.
  { exact (get_project_context_existing ctx project_id p' s1 Hbound Hp'). }
  split; [reflexivity|]. split; [reflexivity|].
  intros key Hstatus Hupdated. subst p'.
  cbn [Project.id Project.name Project.description
    Project.status Project.github_repo_url Project.telegram_chat_id
    Project.vision_document Project.created_at Project.updated_at].
  cbn [list_to_map foldr uncurry fst snd].
  rewrite !(lookup_insert (M:=gmap string)).
  repeat case_decide; subst; done.
Qed.

(** X9. A message saved through [save_message] is the newest entry of the
    conversation: on an existing bound project, after [save_message] with a
    spelling of a role, [get_conversation] with any positive limit returns a
    list whose last dict is that message, with the value of the role, the
    content as given and the time of the write. *)
Theorem saved_message_is_latest_in_conversation
    (ctx : AgentDependencies.t) (project_id : UUID) (role content : string)
    (r : MessageRole) (p : Project.t ProjectStatus) (limit : Z) (s : session) :
  AgentDependencies.project_id ctx = Some project_id ->
  projects s !! project_id = Some p ->
  same_ignoring_case role (member_name r) ->
  0 < limit ->
  exists (s1 : session) (l : list (gmap string PyVal)),
    save_message ctx role content s = (Return ("Message saved as " +:+ role), s1) /\
    get_conversation ctx limit s1 = (Return l, s1) /\
    last l = Some (list_to_map
                     [ ("role", PyStr (member_value r));
                       ("content", PyStr content);
                       ("timestamp", PyStr (isoformat (clock (ticks s)))) ]).
Proof.
  intros Hbound Hp Hspell Hlimit.
  rewrite (save_message_valid_role_appends_run ctx project_id role content r p s
             Hbound Hp Hspell).
  eexists _, _. split; [reflexivity|].
  unfold get_conversation. rewrite Hbound.
  unfold bind, get_conversation_history. cbn [projects messages ticks].
  destruct (limit <=? 0) eqn:Hle; [lia|]. rewrite Hp.
  rewrite filter_app, filter_cons_True, filter_nil by done.
  set (own := filter _ (messages s)).
  split; [reflexivity|].
  rewrite drop_app_le by (rewrite length_app; cbn; lia).
  rewrite List.map_app. cbn [map]. by rewrite last_snoc.
Qed.

End MoreToolProperties.

(** * Further properties of a turn *)

Section MoreTurnProperties.
Context `{RT : PyRuntime}.
Context {ProjectStatus : Type} `{SE : PyEnum ProjectStatus}.

Abbreviation session := (Session ProjectStatus).

(** No tool bound to one project writes the row of another. *)
Lemma call_tool_other_projects (project_id q : UUID) (c : ToolCall) (s : session) :
  q <> project_id ->
  projects (call_tool (bound_to project_id) c s).2 !! q = projects s !! q.
Proof.
  intros Hq. destruct c as [role content| |limit|new_status|vision_doc]; cbn.
  - unfold bind, save_message, getitem; cbn.
    destruct (enum_getitem (E:=MessageRole) (str_upper role)) as [role_enum|]; cbn; [|done].
    unfold save_conversation_message. by destruct (projects s !! project_id).
  - unfold bind, get_project_context, get_project; cbn.
    by destruct (projects s !! project_id).
  - unfold bind, get_conversation, get_conversation_history; cbn.
    destruct (default 20 limit <=? 0); [done|]. by destruct (projects s !! project_id).
  - unfold bind, update_status, try_except_KeyError, getitem; cbn.
    destruct (enum_getitem (E:=ProjectStatus) (str_upper new_status)) as [status_enum|];
      cbn; [|done].
    unfold update_project_status.
    destruct (projects s !! project_id); cbn; [|done]. by rewrite lookup_insert_ne.
  - unfold bind, save_vision_document, update_project_vision; cbn.
    destruct (projects s !! project_id); cbn; [|done]. by rewrite lookup_insert_ne.
Qed.

Lemma Agent_run_other_projects (project_id q : UUID) (model : Model) (s : session) :
  q <> project_id ->
  projects (Agent_run model (bound_to project_id) s).2 !! q = projects s !! q.
Proof.
  intros Hq. revert s. induction model as [data|e|c resume IH]; intros s; [done|done|].
  cbn [Agent_run]. unfold bind.
  pose proof (call_tool_other_projects project_id q c s Hq) as Hcall.
  destruct (call_tool (bound_to project_id) c s) as [[r|e] s1]; cbn in Hcall; [|done].
  by rewrite IH.
Qed.

(** The clock readings taken only grow in number. *)
Lemma call_tool_ticks (ctx : AgentDependencies.t) (c : ToolCall) (s : session) :
  (ticks s <= ticks (call_tool ctx c s).2)%nat.
Proof.
  destruct c as [role content| |limit|new_status|vision_doc]; cbn.
  - unfold bind, save_message.
    destruct (AgentDependencies.project_id ctx) as [project_id|]; cbn; [|done].
    unfold bind, getitem.
    destruct (enum_getitem (E:=MessageRole) (str_upper role)) as [role_enum|]; cbn; [|done].
    unfold save_conversation_message. destruct (projects s !! project_id); cbn; lia.
  - pose proof (reading_tools_same_session ctx 0 s) as [Hsame _].
    unfold bind. destruct (get_project_context ctx s) as [[?|?] s1]; cbn in *; by subst.
  - pose proof (reading_tools_same_session ctx (default 20 limit) s) as [_ Hsame].
    unfold bind.
    destruct (get_conversation ctx (default 20 limit) s) as [[?|?] s1]; cbn in *; by subst.
  - unfold bind, update_status.
    destruct (AgentDependencies.project_id ctx) as [project_id|]; cbn; [|done].
    unfold try_except_KeyError, bind, getitem.
    destruct (enum_getitem (E:=ProjectStatus) (str_upper new_status)) as [status_enum|];
      cbn; [|done].
    unfold update_project_status. destruct (projects s !! project_id); cbn; lia.
  - unfold bind, save_vision_document.
    destruct (AgentDependencies.project_id ctx) as [project_id|]; cbn; [|done].
    unfold bind, update_project_vision. destruct (projects s !! project_id); cbn; lia.
Qed.

Lemma Agent_run_ticks (model : Model) (deps : AgentDependencies.t) (s : session) :
  (ticks s <= ticks (Agent_run model deps s).2)%nat.
Proof.
  revert s. induction model as [data|e|c resume IH]; intros s; [done|done|].
  cbn [Agent_run]. unfold bind.
  pose proof (call_tool_ticks deps c s) as Hcall.
  destruct (call_tool deps c s) as [[r|e] s1]; cbn in Hcall; [|done].
  specialize (IH r s1). lia.
Qed.

(** ** Turns that fail at once *)

(** X10. When the user message cannot be stored, the turn fails with the
    exception of that first write, for every agent alike: it stops before the
    model is asked, and the session is the one the failed write left. On a
    project that does not exist this is NotFound with nothing appended. *)
Theorem run_orchestrator_stops_at_first_write
    (project_id : UUID) (user_message : string) (e : Exn) (s s1 : session) :
  save_conversation_message project_id USER user_message s = (Raise e, s1) ->
  (forall orchestrator_agent : string -> Model,
     run_orchestrator orchestrator_agent project_id user_message s = (Raise e, s1)) /\
  e = NotFound project_id /\
  s1 = s /\
  projects s !! project_id = None.
Proof.
  intros Hsave. split.
  - intros orchestrator_agent. unfold run_orchestrator, bind. by rewrite Hsave.
  - unfold save_conversation_message in Hsave.
    destruct (projects s !! project_id); [done|]. by injection Hsave as <- <-.
Qed.

(** ** What a turn leaves alone *)

(** X12. Whatever the agent does and however the turn ends, a turn only adds
    to the ledger, and only messages of its own project; the rows of all
    other projects are as before, and no project is created or deleted. *)
Theorem run_orchestrator_confined_to_project
    (orchestrator_agent : string -> Model) (project_id : UUID) (user_message : string)
    (s : session) :
  (exists added : list ConversationMessage.t,
     messages (run_orchestrator orchestrator_agent project_id user_message s).2
     = messages s ++ added /\
     Forall (fun m => ConversationMessage.project_id m = project_id) added) /\
  (forall q : UUID, q <> project_id ->
     projects (run_orchestrator orchestrator_agent project_id user_message s).2 !! q
     = projects s !! q) /\
  dom (projects (run_orchestrator orchestrator_agent project_id user_message s).2)
  = dom (projects s).
Proof.
  unfold run_orchestrator, bind. fold (bound_to project_id).
  destruct (save_conversation_message project_id USER user_message s)
    as [[u|e] s1] eqn:Hu.
  2: { unfold save_conversation_message in Hu.
       destruct (projects s !! project_id); [done|]. injection Hu as <- <-.
       split; [|done]. exists []. by rewrite app_nil_r. }
  apply save_conversation_message_Return in Hu as (Hudef & Hm1 & Hp1 & _).
  destruct (Agent_run_extends project_id (orchestrator_agent user_message) s1)
    as (saved & Hsaved & Hown & Hkeys).
  pose proof (Agent_run_other_projects project_id) as Hothers.
  specialize (fun q Hq => Hothers q (orchestrator_agent user_message) s1 Hq).
  destruct (Agent_run (orchestrator_agent user_message) (bound_to project_id) s1)
    as [[reply|e] s2]; cbn in Hsaved, Hkeys, Hothers.
  - destruct (save_conversation_message project_id ASSISTANT reply s2)
      as [[a|e] s3] eqn:Ha; cbn.
    + apply save_conversation_message_Return in Ha as (Hadef & Hm3 & Hp3 & _).
      split; [|split].
      * exists ([u] ++ saved ++ [a]).
        split; [by rewrite Hm3, Hsaved, Hm1, <- !app_assoc|].
        apply Forall_app. split; [by subst u; repeat constructor|].
        apply Forall_app. split; [|by subst a; repeat constructor].
        exact Hown.
      * intros q Hq. by rewrite Hp3, Hothers, Hp1.
      * apply set_eq. intros q. rewrite !elem_of_dom, Hp3, Hkeys. by rewrite Hp1.
    + unfold save_conversation_message in Ha.
      destruct (projects s2 !! project_id); [done|]. injection Ha as <- <-.
      split; [|split].
      * exists ([u] ++ saved).
        split; [by rewrite Hsaved, Hm1, <- !app_assoc|].
        apply Forall_app. split; [by subst u; repeat constructor|].
        exact Hown.
      * intros q Hq. by rewrite Hothers, Hp1.
      * apply set_eq. intros q. rewrite !elem_of_dom, Hkeys. by rewrite Hp1.
  - cbn. split; [|split].
    + exists ([u] ++ saved).
      split; [by rewrite Hsaved, Hm1, <- !app_assoc|].
      apply Forall_app. split; [by subst u; repeat constructor|].
      exact Hown.
    + intros q Hq. by rewrite Hothers, Hp1.
    + apply set_eq. intros q. rewrite !elem_of_dom, Hkeys. by rewrite Hp1.
Qed.

(** ** Turns in sequence *)

(** A successful turn in which no [save_message] call is made: the two
    messages it adds and the clock readings that stamp them. *)
Lemma run_orchestrator_quiet_turn
    (orchestrator_agent : string -> Model) (project_id : UUID)
    (user_message reply : string) (s s' : session) :
  save_message_calls (turn_calls orchestrator_agent project_id user_message s) = [] ->
  run_orchestrator orchestrator_agent project_id user_message s = (Return reply, s') ->
  exists k : nat,
    (ticks s < k)%nat /\ (k < ticks s')%nat /\
    messages s'
    = messages s ++
      [ {| ConversationMessage.project_id := project_id;
           ConversationMessage.role := USER;
           ConversationMessage.content := user_message;
           ConversationMessage.timestamp := clock (ticks s) |};
        {| ConversationMessage.project_id := project_id;
           ConversationMessage.role := ASSISTANT;
           ConversationMessage.content := reply;
           ConversationMessage.timestamp := clock k |} ].
Proof.
  unfold turn_calls. intros Hquiet Hrun.
  apply run_orchestrator_Return in Hrun as (u & a & s1 & s2 & Hu & Hagent & Ha).
  rewrite Hu in Hquiet. cbn [snd] in Hquiet.
  destruct (Agent_run_stores project_id (orchestrator_agent user_message) s1)
    as (saved & cs & Hsaved & Hstored & Hprefix & _).
  pose proof (Agent_run_ticks (orchestrator_agent user_message) (bound_to project_id) s1)
    as Hticks.
  rewrite Hagent in Hsaved, Hticks. cbn in Hsaved, Hticks.
  rewrite Hquiet in Hprefix. apply prefix_nil_inv in Hprefix as ->.
  apply Forall2_nil_inv_l in Hstored as ->. rewrite app_nil_r in Hsaved.
  assert (ticks s1 = S (ticks s) /\ ticks s' = S (ticks s2)) as [Ht1 Ht2].
  { unfold save_conversation_message in Hu, Ha.
    destruct (projects s !! project_id); [|done].
    destruct (projects s2 !! project_id); [|done].
    injection Hu as _ <-. by injection Ha as _ <-. }
  apply save_conversation_message_Return in Hu as (-> & Hm1 & _ & _).
  apply save_conversation_message_Return in Ha as (-> & Hm2 & _ & _).
  exists (ticks s2). split; [lia|]. split; [lia|].
  by rewrite Hm2, Hsaved, Hm1, <- app_assoc.
Qed.

(** X13. Two successful turns in a row on one project, in neither of which a
    [save_message] call is made, add four messages to the ledger: USER,
    ASSISTANT, USER, ASSISTANT, with the two texts and the two replies, in
    this order and with time stamps that never decrease. *)
Theorem two_turns_add_four_messages
    (first_agent second_agent : string -> Model) (project_id : UUID)
    (first_message second_message first_reply second_reply : string)
    (s s1 s2 : session) :
  save_message_calls (turn_calls first_agent project_id first_message s) = [] ->
  save_message_calls (turn_calls second_agent project_id second_message s1) = [] ->
  run_orchestrator first_agent project_id first_message s = (Return first_reply, s1) ->
  run_orchestrator second_agent project_id second_message s1 = (Return second_reply, s2) ->
  exists t1 t2 t3 t4 : datetime,
    messages s2
    = messages s ++
      [ {| ConversationMessage.project_id := project_id;
           ConversationMessage.role := USER;
           ConversationMessage.content := first_message;
           ConversationMessage.timestamp := t1 |};
        {| ConversationMessage.project_id := project_id;
           ConversationMessage.role := ASSISTANT;
           ConversationMessage.content := first_reply;
           ConversationMessage.timestamp := t2 |};
        {| ConversationMessage.project_id := project_id;
           ConversationMessage.role := USER;
           ConversationMessage.content := second_message;
           ConversationMessage.timestamp := t3 |};
        {| ConversationMessage.project_id := project_id;
           ConversationMessage.role := ASSISTANT;
           ConversationMessage.content := second_reply;
           ConversationMessage.timestamp := t4 |} ] /\
    t1 <= t2 /\ t2 <= t3 /\ t3 <= t4.
Proof.
  intros Hquiet1 Hquiet2 Hrun1 Hrun2.
  destruct (run_orchestrator_quiet_turn _ _ _ _ _ _ Hquiet1 Hrun1) as (k1 & Hlo1 & Hhi1 & Hm1).
  destruct (run_orchestrator_quiet_turn _ _ _ _ _ _ Hquiet2 Hrun2) as (k2 & Hlo2 & Hhi2 & Hm2).
  exists (clock (ticks s)), (clock k1), (clock (ticks s1)), (clock k2).
  split; [by rewrite Hm2, Hm1, <- app_assoc|].
  repeat split; apply clock_mono; lia.
Qed.

(** ** A rejected request inside a run *)

(** X14. A status name that spells no member does not end the run: the agent
    receives the rejection string as the result of its call and the run goes
    on from there, on the session as it was. *)
Theorem rejected_status_does_not_end_run
    {SL : PyEnumLaws ProjectStatus}
    (project_id : UUID) (new_status : string) (resume : ToolReturn -> Model)
    (s : session) :
  (forall m : ProjectStatus, ~ same_ignoring_case new_status (member_name m)) ->
  Agent_run (Request (Call_update_status new_status) resume) (bound_to project_id) s
  = Agent_run (resume (ReturnStr ("Error: Invalid status '" +:+ new_status +:+ "'")))
      (bound_to project_id) s.
Proof.
  intros Hno. cbn [Agent_run call_tool]. unfold bind, update_status. cbn.
  unfold try_except_KeyError, bind, getitem.
  by rewrite (enum_getitem_no_spelling new_status Hno).
Qed.

End MoreTurnProperties.

(** * The model at work on [demo_session] *)

#[local] Existing Instance ascii_runtime.

(** The scenario of section 8 of the spec: the agent moves the project to the
    vision review and says so; the ledger holds the two messages of the turn
    and the project is in the new phase. *)
Example review_scenario :
  exists s',
    run_orchestrator reviewing_agent 1%N "let's start" demo_session
    = (Return "Moving to vision review", s') /\
    messages s' = [demo_message USER "let's start" 0;
                   demo_message ASSISTANT "Moving to vision review" 2] /\
    Project.status <$> projects s' !! 1%N = Some VISION_REVIEW.
Proof. eexists. split; [reflexivity|]. split; reflexivity. Qed.

(** ** C1: an unknown role *)

Lemma save_message_unknown_role_witness :
  AgentDependencies.project_id (bound_to 1%N) = Some 1%N /\
  (forall r : MessageRole, ~ same_ignoring_case "moderator" (member_name r)) /\
  save_message (bound_to 1%N) "moderator" "hi" demo_session
  = (Raise (KeyError "MODERATOR"), demo_session).
Proof.
  assert (forall r : MessageRole, ~ same_ignoring_case "moderator" (member_name r)) as Hno.
  { intros r; destruct r; vm_compute; discriminate. }
  split; [reflexivity|]. split; [exact Hno|].
  exact (save_message_unknown_role_raises (bound_to 1%N) 1%N "moderator" "hi"
           demo_session eq_refl Hno).
Defined.

(** The sibling tool on the same kind of input hands back a string. *)
Example update_status_unknown_name_at_demo :
  update_status (bound_to 1%N) "moderator" demo_session
  = (Return "Error: Invalid status 'moderator'", demo_session).
Proof. reflexivity. Qed.

(** The exception of [save_message] ends the turn: the user message is in
    the ledger, no reply is. *)
Example unknown_role_aborts_turn :
  exists s',
    run_orchestrator
      (fun _ => Request (Call_save_message "moderator" "hi") (fun _ => Final "ok"))
      1%N "hi" demo_session
    = (Raise (KeyError "MODERATOR"), s') /\
    messages s' = [demo_message USER "hi" 0].
Proof. eexists. split; reflexivity. Qed.

(** ** C2: an unknown status name *)

Lemma update_status_unknown_name_witness :
  AgentDependencies.project_id (bound_to 1%N) = Some 1%N /\
  (forall m : NamedStatus, ~ same_ignoring_case "done" (member_name m)) /\
  update_status (bound_to 1%N) "done" demo_session
  = (Return "Error: Invalid status 'done'", demo_session).
Proof.
  assert (forall m : NamedStatus, ~ same_ignoring_case "done" (member_name m)) as Hno.
  { intros m; destruct m; vm_compute; discriminate. }
  split; [reflexivity|]. split; [exact Hno|].
  exact (update_status_unknown_name_rejected (bound_to 1%N) 1%N "done"
           demo_session eq_refl Hno).
Defined.

(** ** C5: no project bound *)

Lemma tool_without_project_witness :
  AgentDependencies.project_id unbound = None /\
  exists r : ToolReturn,
    call_tool unbound (Call_update_status "vision_review") demo_session
    = (Return r, demo_session) /\
    reports_error r = true /\
    r = ReturnStr "Error: No active project".
Proof.
  split; [reflexivity|].
  exact (tool_without_project_is_harmless unbound (Call_update_status "vision_review")
           demo_session eq_refl).
Defined.

(** ** C6 and C7: a valid status name *)

Lemma update_status_valid_spelling_witness :
  AgentDependencies.project_id (bound_to 1%N) = Some 1%N /\
  projects demo_session !! 1%N = Some demo_project /\
  same_ignoring_case "Vision_Review" (member_name VISION_REVIEW) /\
  exists (p' : Project.t NamedStatus) (s' : Session NamedStatus),
    update_status (bound_to 1%N) "Vision_Review" demo_session
    = (Return "Project status updated to Vision_Review", s') /\
    projects s' !! 1%N = Some p' /\
    Project.status p' = VISION_REVIEW /\
    Project.updated_at p' = clock (ticks demo_session) /\
    (forall i : nat, (i <= ticks demo_session)%nat -> clock i <= Project.updated_at p') /\
    Project.id p' = Project.id demo_project /\
    Project.vision_document p' = Project.vision_document demo_project /\
    (forall other : UUID, other <> 1%N ->
       projects s' !! other = projects demo_session !! other) /\
    messages s' = messages demo_session.
Proof.
  split; [reflexivity|]. split; [reflexivity|]. split; [reflexivity|].
  exact (update_status_valid_spelling_updates (bound_to 1%N) 1%N "Vision_Review"
           VISION_REVIEW demo_project demo_session eq_refl eq_refl eq_refl).
Defined.

Lemma update_status_any_phase_witness :
  AgentDependencies.project_id (bound_to 1%N) = Some 1%N /\
  projects reviewed_session !! 1%N = Some reviewed_project /\
  Project.status reviewed_project = VISION_REVIEW /\
  same_ignoring_case "brainstorming" (member_name BRAINSTORMING) /\
  (update_status (bound_to 1%N) "brainstorming" reviewed_session).1
  = Return "Project status updated to brainstorming" /\
  Project.status <$>
    (projects (update_status (bound_to 1%N) "brainstorming" reviewed_session).2 !! 1%N)
  = Some BRAINSTORMING.
Proof.
  do 4 (split; [reflexivity|]).
  exact (update_status_any_phase_follows_any VISION_REVIEW BRAINSTORMING
           (bound_to 1%N) 1%N "brainstorming" reviewed_project reviewed_session
           eq_refl eq_refl eq_refl eq_refl).
Defined.

(** ** C8 and C9: the project snapshot *)

(** C8 as first stated fails: the snapshot of [demo_project] has the key
    [name], which is no field of section 3 of the spec, so its keys are not
    exactly those fields. *)
Lemma demo_context_is_not_section3 :
  exists d : gmap string PyVal,
    get_project_context (bound_to 1%N) demo_session = (Return d, demo_session) /\
    d !! "name" = Some (PyStr "shop") /\
    ("name" ∉ section3_keys) /\
    dom d ≠ section3_keys.
Proof.
  eexists. split; [reflexivity|]. split; [reflexivity|].
  assert ("name" ∉ section3_keys) as Hname.
  { by apply (bool_decide_unpack _). }
  split; [exact Hname|].
  intros Hdom. apply Hname. rewrite <- Hdom.
  apply elem_of_dom. eexists. reflexivity.
Qed.

Lemma get_project_context_snapshot_witness :
  AgentDependencies.project_id (bound_to 1%N) = Some 1%N /\
  projects demo_session !! 1%N = Some demo_project /\
  exists d : gmap string PyVal,
    get_project_context (bound_to 1%N) demo_session = (Return d, demo_session) /\
    dom d = section3_keys ∪ {[ "name"; "description" ]} /\
    d !! "has_vision_document" = Some (PyBool false).
Proof.
  do 2 (split; [reflexivity|]).
  destruct (get_project_context_snapshot (bound_to 1%N) 1%N demo_project demo_session
              eq_refl eq_refl)
    as (d & Hrun & Hdom & _ & _ & _ & _ & _ & _ & Hflag & _).
  exists d. split; [exact Hrun|]. split; [exact Hdom | exact Hflag].
Defined.


(** ** C3, C4 and C10: whole turns *)

(** C3 as first stated fails: a successful turn whose agent files a note
    through [save_message] adds three messages to the ledger, not two. *)
Lemma note_taking_turn_adds_three_messages :
  exists s',
    run_orchestrator note_taking_agent 1%N "hi" demo_session = (Return "ok", s') /\
    messages s' = messages demo_session
                  ++ [demo_message USER "hi" 0; demo_message SYSTEM "note" 1; demo_message ASSISTANT "ok" 2] /\
    length (messages s') <> (length (messages demo_session) + 2)%nat.
Proof. eexists. split; [reflexivity|]. split; [reflexivity|]. cbn. lia. Qed.


Lemma run_orchestrator_success_ledger_witness :
  run_orchestrator note_taking_agent 1%N "hi" demo_session
  = (Return "ok", noted_session) /\
  exists (u a : ConversationMessage.t) (s1 s2 : Session NamedStatus)
         (saved : list ConversationMessage.t),
    save_conversation_message 1%N USER "hi" demo_session = (Return u, s1) /\
    Agent_run (note_taking_agent "hi") (bound_to 1%N) s1 = (Return "ok", s2) /\
    save_conversation_message 1%N ASSISTANT "ok" s2 = (Return a, noted_session) /\
    u = demo_message USER "hi" (clock (ticks demo_session)) /\
    a = demo_message ASSISTANT "ok" (clock (ticks s2)) /\
    messages noted_session = messages demo_session ++ [u] ++ saved ++ [a] /\
    Forall2 (stores 1%N)
      (save_message_calls (calls_made (note_taking_agent "hi") (bound_to 1%N) s1))
      saved /\
    (save_message_calls (calls_made (note_taking_agent "hi") (bound_to 1%N) s1) = [] ->
     messages noted_session = messages demo_session ++ [u; a]).
Proof.
  assert (run_orchestrator note_taking_agent 1%N "hi" demo_session
          = (Return "ok", noted_session)) as Hrun.
  { vm_compute. reflexivity. }
  split; [exact Hrun|].
  exact (run_orchestrator_success_ledger note_taking_agent 1%N "hi" "ok"
           demo_session noted_session Hrun).
Defined.

Lemma run_orchestrator_reply_is_persisted_witness :
  run_orchestrator reviewing_agent 1%N "let's start" demo_session
  = (Return "Moving to vision review", reviewed_session) /\
  exists a : ConversationMessage.t,
    last (messages reviewed_session) = Some a /\
    ConversationMessage.project_id a = 1%N /\
    ConversationMessage.role a = ASSISTANT /\
    ConversationMessage.content a = "Moving to vision review" /\
    (length (messages demo_session) < length (messages reviewed_session))%nat.
Proof.
  assert (run_orchestrator reviewing_agent 1%N "let's start" demo_session
          = (Return "Moving to vision review", reviewed_session)) as Hrun.
  { vm_compute. reflexivity. }
  split; [exact Hrun|].
  exact (run_orchestrator_reply_is_persisted reviewing_agent 1%N "let's start"
           "Moving to vision review" demo_session reviewed_session Hrun).
Defined.


(** ** Further properties, on [demo_session] *)

Lemma save_message_valid_role_appends_witness :
  AgentDependencies.project_id (bound_to 1%N) = Some 1%N /\
  projects demo_session !! 1%N = Some demo_project /\
  same_ignoring_case "Assistant" (member_name ASSISTANT) /\
  save_message (bound_to 1%N) "Assistant" "draft" demo_session
  = (Return "Message saved as Assistant",
     {| projects := projects demo_session;
        messages := messages demo_session ++ [demo_message ASSISTANT "draft" 0];
        ticks := 1 |}).
Proof.
  do 3 (split; [reflexivity|]).
  exact (save_message_valid_role_appends (bound_to 1%N) 1%N "Assistant" "draft"
           ASSISTANT demo_project demo_session eq_refl eq_refl eq_refl).
Defined.

Lemma tools_ignore_letter_case_witness :
  same_ignoring_case "vision_review" "Vision_Review" /\
  (save_message (bound_to 1%N) "vision_review" "x" demo_session).2
  = (save_message (bound_to 1%N) "Vision_Review" "x" demo_session).2 /\
  (forall e, (save_message (bound_to 1%N) "vision_review" "x" demo_session).1 = Raise e <->
             (save_message (bound_to 1%N) "Vision_Review" "x" demo_session).1 = Raise e) /\
  (update_status (bound_to 1%N) "vision_review" demo_session).2
  = (update_status (bound_to 1%N) "Vision_Review" demo_session).2 /\
  (forall e, (update_status (bound_to 1%N) "vision_review" demo_session).1 = Raise e <->
             (update_status (bound_to 1%N) "Vision_Review" demo_session).1 = Raise e).
Proof.
  split; [reflexivity|].
  exact (tools_ignore_letter_case (bound_to 1%N) "vision_review" "Vision_Review" "x"
           demo_session eq_refl).
Defined.

Lemma string_result_reports_error_witness :
  call_tool (bound_to 1%N) (Call_update_status "done") demo_session
  = (Return (ReturnStr "Error: Invalid status 'done'"), demo_session) /\
  (reports_error (ReturnStr "Error: Invalid status 'done'") = true <->
   demo_session = demo_session).
Proof.
  split; [reflexivity|].
  exact (string_result_reports_error_iff_unchanged (bound_to 1%N)
           (Call_update_status "done") demo_session demo_session
           "Error: Invalid status 'done'" eq_refl).
Defined.

Lemma get_conversation_projects_history_witness :
  AgentDependencies.project_id (bound_to 1%N) = Some 1%N /\
  get_conversation_history 1%N 20 answered_session
  = (Return [demo_message USER "hi" 0; demo_message ASSISTANT "hello" 1],
     answered_session) /\
  exists l : list (gmap string PyVal),
    get_conversation (bound_to 1%N) 20 answered_session = (Return l, answered_session) /\
    length l = 2%nat.
Proof.
  assert (get_conversation_history 1%N 20 answered_session
          = (Return [demo_message USER "hi" 0; demo_message ASSISTANT "hello" 1],
             answered_session)) as Hhistory.
  { reflexivity. }
  split; [reflexivity|]. split; [exact Hhistory|].
  destruct (get_conversation_projects_history (bound_to 1%N) 1%N 20 _ _ _
              eq_refl Hhistory) as (l & Hrun & Hlen & _).
  exists l. split; [exact Hrun | exact Hlen].
Defined.

Lemma tools_relay_storage_failures_witness :
  AgentDependencies.project_id (bound_to 7%N) = Some 7%N /\
  update_project_vision 7%N demo_vision demo_session
  = (Raise (NotFound 7%N), demo_session) /\
  save_vision_document (bound_to 7%N) demo_vision demo_session
  = (Raise (NotFound 7%N), demo_session).
Proof.
  split; [reflexivity|]. split; [reflexivity|].
  exact (proj2 (proj2 (tools_relay_storage_failures (bound_to 7%N) 7%N (NotFound 7%N)
                         demo_session demo_session eq_refl))
           demo_vision eq_refl).
Defined.

Lemma update_status_relays_missing_project_witness :
  AgentDependencies.project_id (bound_to 7%N) = Some 7%N /\
  enum_getitem (str_upper "vision_review") = Some VISION_REVIEW /\
  update_project_status 7%N VISION_REVIEW demo_session
  = (Raise (NotFound 7%N), demo_session) /\
  update_status (bound_to 7%N) "vision_review" demo_session
  = (Raise (NotFound 7%N), demo_session).
Proof.
  do 3 (split; [reflexivity|]).
  exact (update_status_relays_missing_project (bound_to 7%N) 7%N 7%N "vision_review"
           VISION_REVIEW demo_session demo_session eq_refl eq_refl eq_refl).
Defined.

Lemma save_vision_document_shows_in_context_witness :
  AgentDependencies.project_id (bound_to 1%N) = Some 1%N /\
  projects demo_session !! 1%N = Some demo_project /\
  exists (s1 : Session NamedStatus) (before after : gmap string PyVal),
    save_vision_document (bound_to 1%N) demo_vision demo_session
    = (Return "Vision document saved successfully", s1) /\
    messages s1 = messages demo_session /\
    get_project_context (bound_to 1%N) demo_session = (Return before, demo_session) /\
    get_project_context (bound_to 1%N) s1 = (Return after, s1) /\
    after !! "has_vision_document" = Some (PyBool true) /\
    after !! "updated_at" = Some (PyStr (isoformat (clock (ticks demo_session)))) /\
    forall key : string,
      key <> "has_vision_document" -> key <> "updated_at" ->
      after !! key = before !! key.
Proof.
  do 2 (split; [reflexivity|]).
  exact (save_vision_document_shows_in_context (bound_to 1%N) 1%N demo_vision
           demo_project demo_session eq_refl eq_refl).
Defined.

Lemma update_status_shows_in_context_witness :
  AgentDependencies.project_id (bound_to 1%N) = Some 1%N /\
  projects demo_session !! 1%N = Some demo_project /\
  same_ignoring_case "vision_review" (member_name VISION_REVIEW) /\
  exists (s1 : Session NamedStatus) (before after : gmap string PyVal),
    update_status (bound_to 1%N) "vision_review" demo_session
    = (Return "Project status updated to vision_review", s1) /\
    get_project_context (bound_to 1%N) demo_session = (Return before, demo_session) /\
    get_project_context (bound_to 1%N) s1 = (Return after, s1) /\
    after !! "status" = Some (PyStr "vision_review") /\
    after !! "updated_at" = Some (PyStr (isoformat (clock (ticks demo_session)))) /\
    forall key : string,
      key <> "status" -> key <> "updated_at" ->
      after !! key = before !! key.
Proof.
  do 3 (split; [reflexivity|]).
  exact (update_status_shows_in_context (bound_to 1%N) 1%N "vision_review"
           VISION_REVIEW demo_project demo_session eq_refl eq_refl eq_refl).
Defined.

Lemma saved_message_is_latest_witness :
  AgentDependencies.project_id (bound_to 1%N) = Some 1%N /\
  projects answered_session !! 1%N = Some demo_project /\
  same_ignoring_case "system" (member_name SYSTEM) /\
  0 < 1 /\
  exists (s1 : Session NamedStatus) (l : list (gmap string PyVal)),
    save_message (bound_to 1%N) "system" "note" answered_session
    = (Return "Message saved as system", s1) /\
    get_conversation (bound_to 1%N) 1 s1 = (Return l, s1) /\
    last l = Some (list_to_map
                     [ ("role", PyStr "system");
                       ("content", PyStr "note");
                       ("timestamp", PyStr (isoformat (clock (ticks answered_session)))) ]).
Proof.
  do 3 (split; [reflexivity|]). split; [lia|].
  exact (saved_message_is_latest_in_conversation (bound_to 1%N) 1%N "system" "note"
           SYSTEM demo_project 1 answered_session eq_refl eq_refl eq_refl eq_refl).
Defined.

Lemma run_orchestrator_stops_at_first_write_witness :
  save_conversation_message 7%N USER "hi" demo_session
  = (Raise (NotFound 7%N), demo_session) /\
  run_orchestrator note_taking_agent 7%N "hi" demo_session
  = (Raise (NotFound 7%N), demo_session).
Proof.
  split; [reflexivity|].
  exact (proj1 (run_orchestrator_stops_at_first_write 7%N "hi" (NotFound 7%N)
                  demo_session demo_session eq_refl)
           note_taking_agent).
Defined.

Lemma two_turns_add_four_messages_witness :
  save_message_calls (turn_calls cautious_agent 1%N "hi" demo_session) = [] /\
  save_message_calls (turn_calls cautious_agent 1%N "again" answered_session) = [] /\
  run_orchestrator cautious_agent 1%N "hi" demo_session
  = (Return "hello", answered_session) /\
  run_orchestrator cautious_agent 1%N "again" answered_session
  = (Return "hello", answered_twice_session) /\
  exists t1 t2 t3 t4 : datetime,
    messages answered_twice_session
    = messages demo_session ++
      [ demo_message USER "hi" t1; demo_message ASSISTANT "hello" t2;
        demo_message USER "again" t3; demo_message ASSISTANT "hello" t4 ] /\
    t1 <= t2 /\ t2 <= t3 /\ t3 <= t4.
Proof.
  do 4 (split; [reflexivity|]).
  exact (two_turns_add_four_messages cautious_agent cautious_agent 1%N
           "hi" "again" "hello" "hello" demo_session answered_session
           answered_twice_session eq_refl eq_refl eq_refl eq_refl).
Defined.

Lemma rejected_status_does_not_end_run_witness :
  (forall m : NamedStatus, ~ same_ignoring_case "done" (member_name m)) /\
  Agent_run (confused_agent "hi") (bound_to 1%N) demo_session
  = (Return "Error: Invalid status 'done'", demo_session).
Proof.
  assert (forall m : NamedStatus, ~ same_ignoring_case "done" (member_name m)) as Hno.
  { intros m; destruct m; vm_compute; discriminate. }
  split; [exact Hno|].
  exact (rejected_status_does_not_end_run 1%N "done"
           (fun r => match r with
                     | ReturnStr text => Final text
                     | _ => Final "ok"
                     end)
           demo_session Hno).
Defined.
